(** * Replay-synchronised dashboard: the chart alignment, the replay clock
      controller and the push-connection handlers, embedded from the
      TypeScript sources.

    - [PriceChart]          src/frontend/app/components/portfolio/PriceChart.tsx
                            (the replay-aware component, second half of the file)
    - [ComprehensiveView]   src/frontend/app/components/portfolio/ComprehensiveView.tsx
    - [LegacyView]          src/unnamed/part_000 (the earlier ComprehensiveView)
    - [ReplayModeDialog]    src/unnamed/part_001, first component
    - [App]                 src/unnamed/part_001, second component (main.tsx)

    Conventions.  A JS number that carries an instant (epoch milliseconds,
    epoch seconds) is a [Z]; [NaN] is [None] in an [option Z] and every
    comparison with it is false.  Prices, quantities and the speed multiplier
    are rationals ([Q]).  An optional or nullable field is an [option].
    [console.log]/[console.error] calls are not modelled. *)

From Stdlib Require Import ZArith QArith Bool String Ascii List Lia.
From stdpp Require Import base list.
Import ListNotations.

Local Open Scope string_scope.
Local Open Scope list_scope.
Local Open Scope Z_scope.

(** ** The JavaScript runtime the components rely on *)

Module JS.

(** [new Date(s).getTime()]: the time value in epoch milliseconds, [None]
    for an Invalid Date ([NaN]).  The parser belongs to the engine, so the
    components are embedded over an arbitrary one. *)
Class DateParser := Date_getTime : string -> option Z.

(** Truthiness of a string: every string but the empty one. *)
Definition truthy (s : string) : bool := negb (String.eqb s "").

(** Truthiness of an optional string field ([undefined]/[null] are falsy). *)
Definition truthy_opt (s : option string) : bool :=
  match s with Some s => truthy s | None => false end.

(** [x || d] on an optional number: [undefined], [NaN] and [0] give [d]. *)
Definition or_num (x : option Z) (d : Z) : Z :=
  match x with
  | Some v => if v =? 0 then d else v
  | None => d
  end.

(** [a || b] on optional strings. *)
Definition or_str (a : option string) (b : option string) : option string :=
  if truthy_opt a then a else b.

(** Relational operators on possibly-[NaN] numbers. *)
Definition num_ge (a b : option Z) : bool :=
  match a, b with Some x, Some y => x >=? y | _, _ => false end.

Definition num_le (a b : option Z) : bool :=
  match a, b with Some x, Some y => x <=? y | _, _ => false end.

(** [Math.abs(a - b)]. *)
Definition abs_diff (a b : option Z) : option Z :=
  match a, b with Some x, Some y => Some (Z.abs (x - y)) | _, _ => None end.

(** [diff < minDiff] where [minDiff] starts at [Infinity] (here [None]) and
    [diff] may be [NaN] (here [None]). *)
Definition lt_min (diff : option Z) (minDiff : option Z) : bool :=
  match diff with
  | None => false
  | Some d => match minDiff with None => true | Some m => d <? m end
  end.

(** [Number(p) > 0] on a rational. *)
Definition Qpositive (p : Q) : bool := negb (Qle_bool p 0).

(** *** An executable parser for the examples

    The instants of the two ISO-8601 shapes the application itself produces:
    the value of a date input, [YYYY-MM-DD] (UTC midnight), and the full form
    [YYYY-MM-DDTHH:MM:SSZ].  Every other string is an Invalid Date here. *)

Definition digit (c : ascii) : option Z :=
  let n := Z.of_nat (nat_of_ascii c) in
  if (48 <=? n) && (n <=? 57) then Some (n - 48) else None.

Fixpoint digits (acc : Z) (cs : list ascii) : option Z :=
  match cs with
  | [] => Some acc
  | c :: cs' =>
      match digit c with
      | Some d => digits (acc * 10 + d) cs'
      | None => None
      end
  end.

Definition field (start len : nat) (s : string) : option Z :=
  let part := substring start len s in
  if (String.length part =? len)%nat then digits 0 (list_ascii_of_string part) else None.

Definition isLeap (y : Z) : bool :=
  ((y mod 4 =? 0) && negb (y mod 100 =? 0)) || (y mod 400 =? 0).

Definition daysInMonth (y m : Z) : Z :=
  if m =? 2 then (if isLeap y then 29 else 28)
  else if (m =? 4) || (m =? 6) || (m =? 9) || (m =? 11) then 30
  else 31.

(** Days since 1970-01-01 of a proleptic Gregorian date. *)
Definition daysFromCivil (y m d : Z) : Z :=
  let y' := if m <=? 2 then y - 1 else y in
  let era := y' / 400 in
  let yoe := y' - era * 400 in
  let doy := (153 * (if m <=? 2 then m + 9 else m - 3) + 2) / 5 + d - 1 in
  let doe := yoe * 365 + yoe / 4 - yoe / 100 + doy in
  era * 146097 + doe - 719468.

Definition isoDay (s : string) : option Z :=
  match field 0 4 s, field 5 2 s, field 8 2 s with
  | Some y, Some m, Some d =>
      if String.eqb (substring 4 1 s) "-" && String.eqb (substring 7 1 s) "-"
         && (1 <=? m) && (m <=? 12) && (1 <=? d) && (d <=? daysInMonth y m)
      then Some (daysFromCivil y m d * 86400000)
      else None
  | _, _, _ => None
  end.

Definition isoClock (s : string) : option Z :=
  match field 11 2 s, field 14 2 s, field 17 2 s with
  | Some hh, Some mm, Some ss =>
      if String.eqb (substring 10 1 s) "T" && String.eqb (substring 13 1 s) ":"
         && String.eqb (substring 16 1 s) ":" && String.eqb (substring 19 1 s) "Z"
         && (hh <=? 23) && (mm <=? 59) && (ss <=? 59)
      then Some (((hh * 60 + mm) * 60 + ss) * 1000)
      else None
  | _, _, _ => None
  end.

Definition isoDate : DateParser := fun s =>
  if (String.length s =? 10)%nat then isoDay s
  else if (String.length s =? 20)%nat then
    match isoDay (substring 0 10 s), isoClock s with
    | Some d, Some c => Some (d + c)
    | _, _ => None
    end
  else None.

End JS.

(** ** Shapes shared by the components ([@/lib/api] and the local interfaces) *)

Record ReplayClock := {
  start_date : string;
  end_date : string;
  current_date : string;
  speed_multiplier : Q;
  trading_interval_days : option Z;
  progress : option Q
}.

Record ReplayState := {
  active : bool;
  state : option ReplayClock
}.

Record Trade := {
  id : Z;
  symbol : string;
  market : option string;
  side : string;
  price : Q;
  quantity : Q;
  trade_time : string
}.

Record KlineData := {
  timestamp : option Z;
  datetime : option string;
  open : option Q;
  high : option Q;
  low : option Q;
  close : option Q;
  volume : option Q
}.

(** ** PriceChart.tsx (replay-aware component) *)

Module PriceChart.
Import JS.

Section Chart.
Context `{DateParser}.

(** The component's props [symbol], [market] and [replayState]. *)
Variable prop_symbol : string.
Variable prop_market : string.
Variable replayState : option ReplayState.

(** [replayState?.active ?? false] *)
Definition isReplayActive : bool :=
  match replayState with Some rs => active rs | None => false end.

(** [replayState?.state?.current_date ? new Date(...) : null]; a Date object
    is kept as the string it was built from and read with [Date_getTime]. *)
Definition replayCurrentDate : option string :=
  match replayState with
  | Some rs =>
      match state rs with
      | Some st => if truthy (current_date st) then Some (current_date st) else None
      | None => None
      end
  | None => None
  end.

Definition replayStartDate : option string :=
  match replayState with
  | Some rs =>
      match state rs with
      | Some st => if truthy (start_date st) then Some (start_date st) else None
      | None => None
      end
  | None => None
  end.

(** [date.getTime()] of a Date that is known to be non-null. *)
Definition getTime (d : option string) : option Z :=
  match d with Some s => Date_getTime s | None => None end.

(** [isReplayActive && replayStartDate && replayCurrentDate] (an Invalid Date
    object is still truthy). *)
Definition replayWindowKnown : bool :=
  isReplayActive && bool_decide (is_Some replayStartDate)
                 && bool_decide (is_Some replayCurrentDate).

(** [t.symbol === symbol && (t.market === market || (!t.market && market === 'CRYPTO'))] *)
Definition symbolMatch (t : Trade) : bool :=
  String.eqb (symbol t) prop_symbol
  && (match market t with
      | Some m => String.eqb m prop_market
      | None => false
      end
      || (negb (truthy_opt (market t)) && String.eqb prop_market "CRYPTO")).

(** The predicate of [trades.filter(...)] that builds [symbolTrades]. *)
Definition keepTrade (t : Trade) : bool :=
  if negb (symbolMatch t) then false
  else if replayWindowKnown then
    let tradeTime := Date_getTime (trade_time t) in
    let startTime := getTime replayStartDate in
    let currentTime := getTime replayCurrentDate in
    num_ge tradeTime startTime && num_le tradeTime currentTime
  else true.

Definition symbolTrades (trades : list Trade) : list Trade :=
  List.filter keepTrade trades.

(** [k.close ?? k.open ?? null], then
    [price !== null && price !== undefined && !isNaN(Number(price)) && Number(price) > 0]. *)
Definition candlePrice (k : KlineData) : option Q :=
  match close k with Some c => Some c | None => open k end.

Definition isValidPrice (k : KlineData) : bool :=
  match candlePrice k with Some p => Qpositive p | None => false end.

(** [30 * 24 * 60 * 60 * 1000]: the context shown before the replay start. *)
Definition LOOKBACK_MS : Z := 30 * 24 * 60 * 60 * 1000.

(** [k.datetime ? new Date(k.datetime).getTime() : (k.timestamp || 0) * 1000] *)
Definition klineTimeOf (k : KlineData) : option Z :=
  if truthy_opt (datetime k) then getTime (datetime k)
  else Some (or_num (timestamp k) 0 * 1000).

(** The predicate of [klineData.filter(...)] that builds [validKlineData]. *)
Definition keepKline (k : KlineData) : bool :=
  if negb (isValidPrice k) then false
  else if isReplayActive && bool_decide (is_Some replayCurrentDate)
                         && bool_decide (is_Some replayStartDate) then
    let klineTime := klineTimeOf k in
    let replayTime := getTime replayCurrentDate in
    let startTime := getTime replayStartDate in
    num_le klineTime replayTime
    && num_ge klineTime (match startTime with
                         | Some s => Some (s - LOOKBACK_MS)
                         | None => None
                         end)
  else true.

Definition validKlineData (klineData : list KlineData) : list KlineData :=
  List.filter keepKline klineData.

(** [Number(k.close ?? k.open ?? 0)] *)
Definition prices (valid : list KlineData) : list Q :=
  map (fun k => match candlePrice k with Some p => p | None => 0%Q end) valid.

(** *** Nearest candle of a trade *)

(** The state of the inner [forEach((k, idx) => ...)]: the running [idx],
    [closestIndex] and [minDiff] ([None] is the initial [Infinity]). *)
Record Scan := { idx : nat; closestIndex : nat; minDiff : option Z }.

(** [(k.timestamp || 0) * 1000] *)
Definition klineTime (k : KlineData) : Z := or_num (timestamp k) 0 * 1000.

Definition scanStep (tradeTime : option Z) (s : Scan) (k : KlineData) : Scan :=
  let diff := abs_diff tradeTime (Some (klineTime k)) in
  if lt_min diff (minDiff s)
  then {| idx := S (idx s); closestIndex := idx s; minDiff := diff |}
  else {| idx := S (idx s); closestIndex := closestIndex s; minDiff := minDiff s |}.

Definition scan (tradeTime : option Z) (valid : list KlineData) : Scan :=
  fold_left (scanStep tradeTime) valid
            {| idx := 0; closestIndex := 0; minDiff := None |}.

(** [closestIndex] after the loop over [validKlineData]. *)
Definition nearestIndex (valid : list KlineData) (tradeTime : option Z) : nat :=
  closestIndex (scan tradeTime valid).

(** *** Trade markers and the two marker channels *)

(** [{ x: closestIndex, y: trade.price, label }]; the label is tooltip text
    built with [toFixed] and is left out. *)
Record Marker := { x : nat; y : Q }.

Definition isBuySide (t : Trade) : bool :=
  String.eqb (side t) "BUY" || String.eqb (side t) "LONG".

Definition isSellSide (t : Trade) : bool :=
  String.eqb (side t) "SELL" || String.eqb (side t) "SHORT".

Definition markerOf (valid : list KlineData) (trade : Trade) : Marker :=
  let tradeTime := Date_getTime (trade_time trade) in
  {| x := nearestIndex valid tradeTime; y := price trade |}.

(** The body of [symbolTrades.forEach(trade => ...)]: the pair is
    [(buyMarkers, sellMarkers)], [push] appends. *)
Definition pushMarker (valid : list KlineData)
    (acc : list Marker * list Marker) (trade : Trade) : list Marker * list Marker :=
  let marker := markerOf valid trade in
  if isBuySide trade then (fst acc ++ [marker], snd acc)
  else if isSellSide trade then (fst acc, snd acc ++ [marker])
  else acc.

Definition markers (valid : list KlineData) (trades : list Trade)
  : list Marker * list Marker :=
  fold_left (pushMarker valid) trades ([], []).

Definition buyMarkers valid trades := fst (markers valid trades).
Definition sellMarkers valid trades := snd (markers valid trades).

(** [if (marker.x >= 0 && marker.x < data.length) data[marker.x] = marker.y] *)
Definition writeMarker (data : list (option Q)) (marker : Marker) : list (option Q) :=
  if bool_decide (x marker < length data)%nat
  then <[x marker := Some (y marker)]> data
  else data.

(** [new Array(prices.length).fill(null)] followed by the [forEach] of writes. *)
Definition channel (n : nat) (ms : list Marker) : list (option Q) :=
  fold_left writeMarker ms (replicate n None).

(** The chart's marker datasets for the raw [klineData] and [trades]. *)
Definition buyData (klineData : list KlineData) (trades : list Trade) : list (option Q) :=
  let valid := validKlineData klineData in
  channel (length (prices valid)) (buyMarkers valid (symbolTrades trades)).

Definition sellData (klineData : list KlineData) (trades : list Trade) : list (option Q) :=
  let valid := validKlineData klineData in
  channel (length (prices valid)) (sellMarkers valid (symbolTrades trades)).

(** What the component draws.  It returns a card with a text instead of
    the chart while the first fetch is loading, after a failed fetch, for an
    empty series and for a series without a valid candle; so the scan above
    only ever runs over a non-empty [validKlineData]. *)
Record ChartData := {
  priceLine : list Q;
  buyLine : list (option Q);
  sellLine : list (option Q)
}.

Definition isEmpty {A} (l : list A) : bool :=
  match l with [] => true | _ => false end.

Definition render (loading : bool) (error : option string)
    (klineData : list KlineData) (trades : list Trade) : option ChartData :=
  if loading && isEmpty klineData then None
  else if truthy_opt error || isEmpty klineData then None
  else if isEmpty (validKlineData klineData) then None
  else Some {| priceLine := prices (validKlineData klineData);
               buyLine := buyData klineData trades;
               sellLine := sellData klineData trades |}.

End Chart.
End PriceChart.

(** ** What a handler does to the outside world

    A handler returns the new cells together with the list, in order, of
    the requests it sent, the toasts it raised and the timers it armed. *)

(** A datetime argument of [startReplay]: a string built by a template, or
    the [toISOString()] of an instant. *)
Inductive IsoArg :=
| Text (s : string)
| ISOString (ms : Z).

(** The callbacks the handlers hand to [setTimeout]. *)
Inductive Callback :=
| RefreshData
| FetchStateAfterStart.

Inductive Effect :=
| getReplayState
| startReplay (startISO endISO : IsoArg) (speed : Q) (intervalDays : option Z)
| stopReplay
| advanceReplay (seconds : Z)
| toastError (msg : string)
| toastSuccess (msg : string)
| setTimeout (ms : Z) (cb : Callback)
| onRefreshData.

(** The requests among the effects ([@/lib/api] calls). *)
Definition isNetworkCall (e : Effect) : bool :=
  match e with
  | getReplayState | startReplay _ _ _ _ | stopReplay | advanceReplay _ => true
  | _ => false
  end.

(** ** ComprehensiveView.tsx *)

Module ComprehensiveView.
Import JS.

(** The [useState] cells of the component. *)
Record ViewState := {
  replayState : option ReplayState;
  startDate : string;
  endDate : string;
  speedMultiplier : Q;
  tradingIntervalDays : Z;
  loading : bool;
  showReplayControls : bool
}.

Definition setReplayState (r : option ReplayState) (v : ViewState) : ViewState :=
  {| replayState := r; startDate := startDate v; endDate := endDate v;
     speedMultiplier := speedMultiplier v;
     tradingIntervalDays := tradingIntervalDays v;
     loading := loading v; showReplayControls := showReplayControls v |}.

Definition setLoading (b : bool) (v : ViewState) : ViewState :=
  {| replayState := replayState v; startDate := startDate v; endDate := endDate v;
     speedMultiplier := speedMultiplier v;
     tradingIntervalDays := tradingIntervalDays v;
     loading := b; showReplayControls := showReplayControls v |}.

Definition setShowReplayControls (b : bool) (v : ViewState) : ViewState :=
  {| replayState := replayState v; startDate := startDate v; endDate := endDate v;
     speedMultiplier := speedMultiplier v;
     tradingIntervalDays := tradingIntervalDays v;
     loading := loading v; showReplayControls := b |}.

(** *** Polling the replay state *)

Record Config := { normalMs : Z; backoffMs : Z }.

Definition CONFIG : Config := {| normalMs := 10000; backoffMs := 30000 |}.

(** The polling effect: the component's cells and refs, the effect's
    [cancelled] flag, the browser's pending [setTimeout] callbacks armed by
    [scheduleNext] (handle and delay), and two counters of what left the
    component: the [getReplayState()] calls of [runFetch] that have not
    settled yet, and the calls of [onRefreshDataRef.current()]. *)
Record Poller := {
  view : ViewState;
  cancelled : bool;
  inFlightRef : bool;
  pollTimeoutRef : option nat;
  timeouts : list (nat * Z);
  nextHandle : nat;
  outstanding : nat;
  refreshes : nat
}.

(** The effect as it stands when its body starts to run on mount. *)
Definition mount (v : ViewState) : Poller :=
  {| view := v; cancelled := false; inFlightRef := false; pollTimeoutRef := None;
     timeouts := []; nextHandle := 1; outstanding := 0; refreshes := 0 |}.

(** [getReplayState()] settles with a state, or rejects with an error whose
    [message] may be missing. *)
Inductive Reply := Fulfilled (s : ReplayState) | Rejected (message : option string).

Definition clearTimeout (h : nat) (ts : list (nat * Z)) : list (nat * Z) :=
  List.filter (fun t => negb (fst t =? h)%nat) ts.

Definition pending (h : nat) (ts : list (nat * Z)) : bool :=
  existsb (fun t => (fst t =? h)%nat) ts.

(** [scheduleNext(delayMs)] *)
Definition scheduleNext (delayMs : Z) (p : Poller) : Poller :=
  if cancelled p then p
  else {| view := view p; cancelled := cancelled p; inFlightRef := inFlightRef p;
          pollTimeoutRef := Some (nextHandle p);
          timeouts := timeouts p ++ [(nextHandle p, delayMs)];
          nextHandle := S (nextHandle p);
          outstanding := outstanding p; refreshes := refreshes p |}.

(** [runFetch()] up to its [await]: the guard, the flag, the request. *)
Definition runFetch (p : Poller) : Poller :=
  if cancelled p || inFlightRef p then p
  else {| view := view p; cancelled := cancelled p; inFlightRef := true;
          pollTimeoutRef := pollTimeoutRef p; timeouts := timeouts p;
          nextHandle := nextHandle p;
          outstanding := S (outstanding p); refreshes := refreshes p |}.

(** [try]/[catch] of [runFetch()] once the request has settled. *)
Definition afterReply (r : Reply) (p : Poller) : Poller :=
  if cancelled p then p
  else match r with
       | Fulfilled st =>
           let p1 :=
             {| view := setReplayState (Some st) (view p); cancelled := cancelled p;
                inFlightRef := inFlightRef p; pollTimeoutRef := pollTimeoutRef p;
                timeouts := timeouts p; nextHandle := nextHandle p;
                outstanding := outstanding p;
                refreshes := if active st then S (refreshes p) else refreshes p |} in
           scheduleNext (normalMs CONFIG) p1
       | Rejected _ => scheduleNext (backoffMs CONFIG) p
       end.

(** The rest of [runFetch()]: the request leaves the wire, the [try]/[catch]
    runs, and [finally] lowers the flag. *)
Definition resume (r : Reply) (p : Poller) : Poller :=
  let p1 :=
    {| view := view p; cancelled := cancelled p; inFlightRef := inFlightRef p;
       pollTimeoutRef := pollTimeoutRef p; timeouts := timeouts p;
       nextHandle := nextHandle p;
       outstanding := pred (outstanding p); refreshes := refreshes p |} in
  let p2 := afterReply r p1 in
  {| view := view p2; cancelled := cancelled p2; inFlightRef := false;
     pollTimeoutRef := pollTimeoutRef p2; timeouts := timeouts p2;
     nextHandle := nextHandle p2;
     outstanding := outstanding p2; refreshes := refreshes p2 |}.

(** The callback armed by [scheduleNext]:
    [pollTimeoutRef.current = null; runFetch()]. *)
Definition onTimeout (h : nat) (p : Poller) : Poller :=
  runFetch
    {| view := view p; cancelled := cancelled p; inFlightRef := inFlightRef p;
       pollTimeoutRef := None; timeouts := clearTimeout h (timeouts p);
       nextHandle := nextHandle p;
       outstanding := outstanding p; refreshes := refreshes p |}.

(** The effect's cleanup. *)
Definition cleanup (p : Poller) : Poller :=
  {| view := view p; cancelled := true; inFlightRef := inFlightRef p;
     pollTimeoutRef := pollTimeoutRef p;
     timeouts := match pollTimeoutRef p with
                 | Some h => clearTimeout h (timeouts p)
                 | None => timeouts p
                 end;
     nextHandle := nextHandle p;
     outstanding := outstanding p; refreshes := refreshes p |}.

(** What the event loop can run next: a call of [runFetch()] (the effect
    body, or a poll tick however it was scheduled), a pending timeout, the
    settling of an outstanding request, the cleanup. *)
Inductive Event :=
| RunFetch
| TimeoutFires (h : nat)
| FetchSettles (r : Reply)
| Cleanup.

Definition step (p : Poller) (e : Event) : Poller :=
  match e with
  | RunFetch => runFetch p
  | TimeoutFires h => if pending h (timeouts p) then onTimeout h p else p
  | FetchSettles r => if (outstanding p =? 0)%nat then p else resume r p
  | Cleanup => cleanup p
  end.

Definition run (p : Poller) (es : list Event) : Poller := fold_left step es p.

(** *** Auto-advance *)

Definition BASE_MS_PER_DAY : Z := 2000.

(** The timer the effect arms with [setInterval]: its delay, and the
    seconds its callback passes to [advanceReplay]. *)
Record Interval := { speedMs : Q; tradingIntervalSeconds : Z }.

(** The body of the auto-advance effect: [None] when it returns before
    [setInterval]. *)
Definition autoAdvance (replayState : option ReplayState) : option Interval :=
  match replayState with
  | Some rs =>
      if active rs then
        match state rs with
        | Some currentState =>
            let tradingIntervalDays := or_num (trading_interval_days currentState) 1 in
            let tradingIntervalSeconds := tradingIntervalDays * 86400 in
            let speedMs :=
              (inject_Z (BASE_MS_PER_DAY * tradingIntervalDays)
               / speed_multiplier currentState)%Q in
            Some {| speedMs := speedMs; tradingIntervalSeconds := tradingIntervalSeconds |}
        | None => None
        end
      else None
  | None => None
  end.

(** One run of the interval's callback, given whether [advanceReplay]
    succeeded and how the following [getReplayState] settled. *)
Definition tick (iv : Interval) (advanced : bool) (r : Reply) (v : ViewState)
  : ViewState * list Effect :=
  if advanced then
    match r with
    | Fulfilled newState =>
        (setReplayState (Some newState) v,
         [advanceReplay (tradingIntervalSeconds iv); getReplayState;
          setTimeout 500 RefreshData])
    | Rejected _ => (v, [advanceReplay (tradingIntervalSeconds iv); getReplayState])
    end
  else (v, [advanceReplay (tradingIntervalSeconds iv)]).

(** The effect's dependency array
    [[replayState?.active, replayState?.state?.speed_multiplier]]. *)
Definition Deps : Type := option bool * option Q.

Definition autoAdvanceDeps (replayState : option ReplayState) : Deps :=
  (match replayState with Some rs => Some (active rs) | None => None end,
   match replayState with
   | Some rs =>
       match state rs with
       | Some st => Some (speed_multiplier st)
       | None => None
       end
   | None => None
   end).

(** React's comparison of two dependency arrays ([Object.is] per entry;
    two numbers are the same when they are equal). *)
Definition sameDeps (a b : Deps) : bool :=
  match fst a, fst b with
  | Some x, Some y => Bool.eqb x y
  | None, None => true
  | _, _ => false
  end
  && match snd a, snd b with
     | Some x, Some y => Qeq_bool x y
     | None, None => true
     | _, _ => false
     end.

(** The effect as React keeps it: the browser's running [setInterval]
    timers, the interval the effect's pending cleanup will clear (none when
    the body returned early), and the dependencies of its last run. *)
Record AutoAdvance := {
  intervals : list (nat * Interval);
  nextInterval : nat;
  armed : option nat;
  lastDeps : option Deps
}.

Definition unmounted : AutoAdvance :=
  {| intervals := []; nextInterval := 1; armed := None; lastDeps := None |}.

Definition clearInterval (h : nat) (ivs : list (nat * Interval)) : list (nat * Interval) :=
  List.filter (fun t => negb (fst t =? h)%nat) ivs.

(** React after a render in which [replayState] is [rs]: an effect whose
    dependencies did not change is left alone; otherwise its cleanup runs
    and then its body. *)
Definition commit (rs : option ReplayState) (a : AutoAdvance) : AutoAdvance :=
  if match lastDeps a with
     | Some d => sameDeps d (autoAdvanceDeps rs)
     | None => false
     end
  then a
  else
    let ivs := match armed a with
               | Some h => clearInterval h (intervals a)
               | None => intervals a
               end in
    match autoAdvance rs with
    | Some iv =>
        {| intervals := ivs ++ [(nextInterval a, iv)];
           nextInterval := S (nextInterval a);
           armed := Some (nextInterval a);
           lastDeps := Some (autoAdvanceDeps rs) |}
    | None =>
        {| intervals := ivs; nextInterval := nextInterval a; armed := None;
           lastDeps := Some (autoAdvanceDeps rs) |}
    end.

(** *** The replay controls *)

(** [a || b] ending in a literal. *)
Definition or_else (a : option string) (b : string) : string :=
  match or_str a (Some b) with Some s => s | None => b end.

(** How [startReplay] settled: a response, or a rejection carrying
    [err.message], [err.data?.detail] and [err.data?.message]. *)
Inductive StartResult :=
| StartReplied (success : bool) (message : option string)
| StartThrew (message detail dataMessage : option string).

Definition startErrorMessage (r : StartResult) : string :=
  match r with
  | StartReplied _ message => or_else message "Failed to start replay mode"
  | StartThrew message detail dataMessage =>
      or_else (or_str message (or_str detail dataMessage)) "Failed to start replay mode"
  end.

Definition handleStart `{DateParser} (reply : StartResult) (v : ViewState)
  : ViewState * list Effect :=
  if negb (truthy (startDate v)) || negb (truthy (endDate v)) then
    (v, [toastError "Please select start and end dates"])
  else if num_ge (Date_getTime (startDate v)) (Date_getTime (endDate v)) then
    (v, [toastError "Start date must be before end date"])
  else
    let startDateTime := (startDate v ++ "T00:00:00Z")%string in
    let endDateTime := (endDate v ++ "T23:59:59Z")%string in
    let request :=
      startReplay (Text startDateTime) (Text endDateTime)
                  (speedMultiplier v) (Some (tradingIntervalDays v)) in
    (setLoading false (setLoading true v),
     request ::
     match reply with
     | StartReplied true _ =>
         [toastSuccess "Replay mode started"; setTimeout 500 FetchStateAfterStart]
     | _ => [toastError ("Failed to start replay: " ++ startErrorMessage reply)%string]
     end).

(** The callback [handleStart] arms after a successful start. *)
Definition fetchStateAfterStart (r : Reply) (v : ViewState) : ViewState * list Effect :=
  match r with
  | Fulfilled st =>
      (setShowReplayControls false (setReplayState (Some st) v),
       [getReplayState; onRefreshData])
  | Rejected _ => (v, [getReplayState])
  end.

(** [handleStop], given [None] when [stopReplay] succeeded and the error's
    message otherwise. *)
Definition handleStop (failure : option (option string)) (v : ViewState)
  : ViewState * list Effect :=
  match failure with
  | None =>
      (setLoading false (setReplayState None (setLoading true v)),
       [stopReplay; toastSuccess "Replay mode stopped"; setTimeout 500 RefreshData])
  | Some message =>
      (setLoading false (setLoading true v),
       [stopReplay; toastError (or_else message "Failed to stop replay mode")])
  end.

(** [handleAdvance(seconds)], given how [advanceReplay] and then
    [getReplayState] settled ([None]: fulfilled). *)
Definition handleAdvance (seconds : Z) (failure : option (option string))
    (r : Reply) (v : ViewState) : ViewState * list Effect :=
  match failure with
  | None =>
      match r with
      | Fulfilled st =>
          (setReplayState (Some st) v,
           [advanceReplay seconds; getReplayState; setTimeout 500 RefreshData])
      | Rejected message =>
          (v, [advanceReplay seconds; getReplayState;
               toastError (or_else message "Failed to advance replay")])
      end
  | Some message =>
      (v, [advanceReplay seconds; toastError (or_else message "Failed to advance replay")])
  end.

End ComprehensiveView.

(** ** The earlier ComprehensiveView (src/unnamed/part_000) *)

Module LegacyView.
Import JS.

(** The auto-advance effect of the earlier revision: the delay is the
    simulated interval itself, divided by the speed. *)
Definition autoAdvance (replayState : option ReplayState)
  : option ComprehensiveView.Interval :=
  match replayState with
  | Some rs =>
      if active rs then
        match state rs with
        | Some currentState =>
            let tradingIntervalDays := or_num (trading_interval_days currentState) 1 in
            let tradingIntervalSeconds := tradingIntervalDays * 86400 in
            let speedMs :=
              (inject_Z tradingIntervalSeconds / speed_multiplier currentState
               * 1000)%Q in
            Some {| ComprehensiveView.speedMs := speedMs;
                    ComprehensiveView.tradingIntervalSeconds := tradingIntervalSeconds |}
        | None => None
        end
      else None
  | None => None
  end.

End LegacyView.

(** ** ReplayModeDialog (src/unnamed/part_001) *)

Module ReplayModeDialog.
Import JS.

Record DialogState := {
  replayState : option ReplayState;
  startDate : string;
  endDate : string;
  speedMultiplier : Q;
  loading : bool
}.

Definition setReplayState (r : option ReplayState) (d : DialogState) : DialogState :=
  {| replayState := r; startDate := startDate d; endDate := endDate d;
     speedMultiplier := speedMultiplier d; loading := loading d |}.

Definition setLoading (b : bool) (d : DialogState) : DialogState :=
  {| replayState := replayState d; startDate := startDate d; endDate := endDate d;
     speedMultiplier := speedMultiplier d; loading := b |}.

(** [handleStart], given [None] when [startReplay] succeeded and the
    error's message otherwise, and how the following [getReplayState]
    settled.  [toISOString()] of an Invalid Date throws a [RangeError]
    inside the [try]. *)
Definition handleStart `{DateParser} (failure : option (option string))
    (r : ComprehensiveView.Reply) (d : DialogState) : DialogState * list Effect :=
  if negb (truthy (startDate d)) || negb (truthy (endDate d)) then
    (d, [toastError "Please select start and end dates"])
  else if num_ge (Date_getTime (startDate d)) (Date_getTime (endDate d)) then
    (d, [toastError "Start date must be before end date"])
  else
    match Date_getTime (startDate d), Date_getTime (endDate d) with
    | Some startMs, Some endMs =>
        let request :=
          startReplay (ISOString startMs) (ISOString endMs) (speedMultiplier d) None in
        match failure with
        | None =>
            match r with
            | ComprehensiveView.Fulfilled st =>
                (setLoading false (setReplayState (Some st) (setLoading true d)),
                 [request; toastSuccess "Replay mode started"; getReplayState])
            | ComprehensiveView.Rejected message =>
                (setLoading false (setLoading true d),
                 [request; toastSuccess "Replay mode started"; getReplayState;
                  toastError (ComprehensiveView.or_else message
                                "Failed to start replay mode")])
            end
        | Some message =>
            (setLoading false (setLoading true d),
             [request; toastError (ComprehensiveView.or_else message
                                     "Failed to start replay mode")])
        end
    | _, _ =>
        (setLoading false (setLoading true d), [toastError "Invalid time value"])
    end.

End ReplayModeDialog.

(** ** The application root (main.tsx, in src/unnamed/part_001) *)

Module App.
Import JS.

(** A payload the root only stores and passes on. *)
#[local] Set Warnings "-register-all".
Inductive Json :=
| JNull
| JNumber (q : Q)
| JString (s : string)
| JArray (items : list Json)
| JObject (fields : list (string * Json)).

(** Of a user and an account the handlers read one field each. *)
Record User := { username : string }.
Record Account := { name : string }.

(** A parsed push message; a field that is absent (or [null]) is [None]. *)
Module Msg.
Record t := {
  type : string;
  user : option User;
  account : option Account;
  overview : option Json;
  positions : option (list Json);
  orders : option (list Json);
  trades : option (list Json);
  ai_decisions : option (list Json);
  all_asset_curves : option (list Json);
  message : option string
}.
End Msg.

(** The [useState] cells fed by the push channel.  [overview], [positions]
    and [orders] are set to whatever the message holds, so they can become
    [undefined] ([None]). *)
Record Snapshot := {
  user : option User;
  account : option Account;
  overview : option Json;
  positions : option (list Json);
  orders : option (list Json);
  trades : list Json;
  aiDecisions : list Json;
  allAssetCurves : list Json;
  wsError : option string
}.

(** What a message makes the root do besides updating its cells. *)
Inductive Out :=
| sendGetSnapshot
| refreshAccounts
| toastSuccess (msg : string)
| toastPlain (msg : string)
| toastError (msg : string).

Definition includes (needle hay : string) : bool :=
  match String.index 0 needle hay with Some _ => true | None => false end.

Definition isSnapshotType (ty : string) : bool :=
  String.eqb ty "snapshot" || String.eqb ty "snapshot_full"
  || String.eqb ty "snapshot_fast".

(** The snapshot branch of [handleMessage]. *)
Definition applySnapshot (msg : Msg.t) (s : Snapshot) : Snapshot :=
  {| user := user s;
     account := account s;
     overview := Msg.overview msg;
     positions := Msg.positions msg;
     orders := Msg.orders msg;
     trades := default [] (Msg.trades msg);
     aiDecisions := default [] (Msg.ai_decisions msg);
     allAssetCurves := match Msg.all_asset_curves msg with
                       | Some curves => curves
                       | None => allAssetCurves s
                       end;
     wsError := wsError s |}.

Definition setUser (u : option User) (s : Snapshot) : Snapshot :=
  {| user := u; account := account s; overview := overview s;
     positions := positions s; orders := orders s; trades := trades s;
     aiDecisions := aiDecisions s; allAssetCurves := allAssetCurves s;
     wsError := wsError s |}.

Definition setAccount (a : option Account) (s : Snapshot) : Snapshot :=
  {| user := user s; account := a; overview := overview s;
     positions := positions s; orders := orders s; trades := trades s;
     aiDecisions := aiDecisions s; allAssetCurves := allAssetCurves s;
     wsError := wsError s |}.

Definition setTrades (t : list Json) (s : Snapshot) : Snapshot :=
  {| user := user s; account := account s; overview := overview s;
     positions := positions s; orders := orders s; trades := t;
     aiDecisions := aiDecisions s; allAssetCurves := allAssetCurves s;
     wsError := wsError s |}.

Definition setWsError (e : option string) (s : Snapshot) : Snapshot :=
  {| user := user s; account := account s; overview := overview s;
     positions := positions s; orders := orders s; trades := trades s;
     aiDecisions := aiDecisions s; allAssetCurves := allAssetCurves s;
     wsError := e |}.

Definition NO_ACCOUNT : string :=
  "No account found. Please create an account in Settings.".

(** [handleMessage] on a message that parsed.  Reading [msg.user.username]
    or [msg.account.name] of an absent field throws inside the [try], which
    leaves the cells as they were. *)
Definition handleMessage (msg : Msg.t) (s : Snapshot) : Snapshot * list Out :=
  let ty := Msg.type msg in
  if String.eqb ty "bootstrap_ok" then
    let s1 := match Msg.user msg with Some u => setUser (Some u) s | None => s end in
    match Msg.account msg with
    | Some a => (setAccount (Some a) s1, [refreshAccounts; sendGetSnapshot])
    | None => (setAccount None (setWsError (Some NO_ACCOUNT) s1), [refreshAccounts])
    end
  else if isSnapshotType ty then (applySnapshot msg s, [])
  else if String.eqb ty "trades" then (setTrades (default [] (Msg.trades msg)) s, [])
  else if String.eqb ty "order_filled" then
    (s, [toastSuccess "Order filled"; sendGetSnapshot])
  else if String.eqb ty "order_pending" then
    (s, [toastPlain "Order placed, waiting for fill"; sendGetSnapshot])
  else if String.eqb ty "user_switched" then
    match Msg.user msg with
    | Some u => (setUser (Some u) s, [toastSuccess ("Switched to " ++ username u)%string])
    | None => (s, [])
    end
  else if String.eqb ty "account_switched" then
    match Msg.account msg with
    | Some a =>
        (setAccount (Some a) s,
         [toastSuccess ("Switched to " ++ name a)%string; refreshAccounts])
    | None => (s, [])
    end
  else if String.eqb ty "error" then
    match Msg.message msg with
    | Some m =>
        if truthy m && includes "No account found" m
        then (setWsError (Some NO_ACCOUNT) s, [])
        else (s, [toastError (if truthy m then m else "Order error")])
    | None => (s, [toastError "Order error"])
    end
  else (s, []).

(** *** The push connection *)

(** The module-level singleton, the refs and locals of the connection
    effect ([ws], [reconnectTimer]), the [wsConnected] cell, and the
    browser's pending [setTimeout] callbacks (handle and delay); the callback
    of every one of them calls [connectWebSocket].  A socket is named by a
    number. *)
Record Link := {
  WS_SINGLETON : option nat;
  wsRef : option nat;
  ws : option nat;
  reconnectTimer : option nat;
  timers : list (nat * Z);
  nextTimer : nat;
  nextSocket : nat;
  wsConnected : bool
}.

(** [reconnectTimer = setTimeout(connectWebSocket, delay)] *)
Definition armReconnect (delay : Z) (l : Link) : Link :=
  {| WS_SINGLETON := WS_SINGLETON l; wsRef := wsRef l; ws := ws l;
     reconnectTimer := Some (nextTimer l);
     timers := timers l ++ [(nextTimer l, delay)];
     nextTimer := S (nextTimer l);
     nextSocket := nextSocket l; wsConnected := wsConnected l |}.

(** [handleClose(event)], for the event's [code]. *)
Definition handleClose (code : Z) (l : Link) : Link :=
  let l1 :=
    {| WS_SINGLETON := None;
       wsRef := if bool_decide (wsRef l = ws l) then None else wsRef l;
       ws := ws l;
       reconnectTimer := reconnectTimer l; timers := timers l;
       nextTimer := nextTimer l; nextSocket := nextSocket l;
       wsConnected := false |} in
  if negb (code =? 1000) && negb (code =? 1001) then armReconnect 3000 l1 else l1.

(** [connectWebSocket()], given whether [new WebSocket(...)] throws. *)
Definition connectWebSocket (throws : bool) (l : Link) : Link :=
  if throws then armReconnect 5000 l
  else {| WS_SINGLETON := Some (nextSocket l); wsRef := Some (nextSocket l);
          ws := Some (nextSocket l);
          reconnectTimer := reconnectTimer l; timers := timers l;
          nextTimer := nextTimer l; nextSocket := S (nextSocket l);
          wsConnected := wsConnected l |}.

(** A pending timer fires: it leaves the table and its callback runs. *)
Definition fire (h : nat) (throws : bool) (l : Link) : Link :=
  if existsb (fun t => (fst t =? h)%nat) (timers l) then
    connectWebSocket throws
      {| WS_SINGLETON := WS_SINGLETON l; wsRef := wsRef l; ws := ws l;
         reconnectTimer := reconnectTimer l;
         timers := List.filter (fun t => negb (fst t =? h)%nat) (timers l);
         nextTimer := nextTimer l; nextSocket := nextSocket l;
         wsConnected := wsConnected l |}
  else l.

End App.

(** ** PriceChart.tsx: how much history is fetched, and how often *)

Module ChartControls.
Import JS.

(** The two selectors of the chart (both union types in the source). *)
Inductive Timeframe := tf_1m | tf_5m | tf_15m | tf_1h | tf_1d.
Inductive HistoryRange := r_1M | r_3M | r_6M | r_1Y | r_2Y | r_ALL.

(** [daysMap[historyRange]]; the map has no entry for ['ALL']. *)
Definition daysMap (historyRange : HistoryRange) : option Z :=
  match historyRange with
  | r_1M => Some 30
  | r_3M => Some 90
  | r_6M => Some 180
  | r_1Y => Some 365
  | r_2Y => Some 730
  | r_ALL => None
  end.

(** [getDataCount()] *)
Definition getDataCount (timeframe : Timeframe) (historyRange : HistoryRange) : Z :=
  match timeframe with
  | tf_1d =>
      match historyRange with
      | r_1M => 31
      | r_3M => 93
      | r_6M => 183
      | r_1Y => 365
      | r_2Y => 500
      | r_ALL => 500
      end
  | _ =>
      match historyRange with
      | r_ALL => 500
      | _ =>
          let days := or_num (daysMap historyRange) 365 in
          match timeframe with
          | tf_1m => Z.min 500 (days * 24 * 60)
          | tf_5m => Z.min 500 (days * 24 * 12)
          | tf_15m => Z.min 500 (days * 24 * 4)
          | tf_1h => Z.min 500 (days * 24)
          | tf_1d => 100
          end
      end
  end.

(** The period of the refetch the effect arms after its first fetch: none
    while replay is active, five minutes for daily candles, thirty seconds
    otherwise. *)
Definition refreshInterval (isReplayActive : bool) (timeframe : Timeframe) : option Z :=
  if isReplayActive then None
  else Some (match timeframe with tf_1d => 300000 | _ => 30000 end).

End ChartControls.

(** ** PriceChart.tsx: the component before replay (first half of the file) *)

Module OriginalPriceChart.
Import JS.

Section Chart.
Context `{DateParser}.
Variable prop_symbol : string.
Variable prop_market : string.

(** [trades.filter(t => t.symbol === symbol && t.market === market)] *)
Definition symbolTrades (trades : list Trade) : list Trade :=
  List.filter
    (fun t => String.eqb (symbol t) prop_symbol
              && match market t with
                 | Some m => String.eqb m prop_market
                 | None => false
                 end)
    trades.

(** [klineData.filter(...)]: the candles with a valid price. *)
Definition validKlineData (klineData : list KlineData) : list KlineData :=
  List.filter PriceChart.isValidPrice klineData.

(** The marker loop and the two datasets are those of the later component. *)
Definition buyData (klineData : list KlineData) (trades : list Trade) : list (option Q) :=
  let valid := validKlineData klineData in
  PriceChart.channel (length (PriceChart.prices valid))
    (PriceChart.buyMarkers valid (symbolTrades trades)).

Definition sellData (klineData : list KlineData) (trades : list Trade) : list (option Q) :=
  let valid := validKlineData klineData in
  PriceChart.channel (length (PriceChart.prices valid))
    (PriceChart.sellMarkers valid (symbolTrades trades)).

End Chart.
End OriginalPriceChart.

(** ** main.tsx: what is shown, how the socket is shared, who may send *)

Module AppShell.
Import JS App.

(** The root shows the pages only once a user, an account and an overview
    are known; until then an error text or the connecting text. *)
Inductive Screen :=
| ErrorScreen (text : string)
| ConnectingScreen
| MainScreen.

(** Truthiness of a payload: [null], the number 0 and the empty string
    are falsy; arrays and objects, empty ones too, are truthy. *)
Definition truthyJson (j : Json) : bool :=
  match j with
  | JNull => false
  | JNumber q => negb (Qeq_bool q 0)
  | JString s => truthy s
  | JArray _ => true
  | JObject _ => true
  end.

(** Truthiness of the [overview] cell: [null], [undefined] and a falsy
    payload alike are falsy. *)
Definition truthyCell (o : option Json) : bool :=
  match o with Some j => truthyJson j | None => false end.

(** [if (!user || !account || !overview) { if (wsError) ... }]; a user and
    an account are objects, so they are truthy whenever they are there. *)
Definition screen (s : Snapshot) : Screen :=
  if negb (bool_decide (is_Some (user s))) || negb (bool_decide (is_Some (account s)))
     || negb (truthyCell (overview s))
  then match wsError s with
       | Some e => if truthy e then ErrorScreen e else ConnectingScreen
       | None => ConnectingScreen
       end
  else MainScreen.

(** [WebSocket.readyState] *)
Inductive ReadyState := CONNECTING | OPEN | CLOSING | CLOSED.

(** [!ws || ws.readyState === WebSocket.CLOSING || ws.readyState === WebSocket.CLOSED],
    for the singleton read at mount and its ready state. *)
Definition created (singleton : option nat) (ready : ReadyState) : bool :=
  match singleton with
  | None => true
  | Some _ => match ready with CLOSING | CLOSED => true | _ => false end
  end.

(** The body of the connection effect: its locals start from the
    singleton; a missing or closing socket is replaced, a live one is
    adopted.  [ready] is the ready state of the singleton, if there is one. *)
Definition mountConnection (ready : ReadyState) (throws : bool) (l : Link) : Link :=
  let l0 :=
    {| WS_SINGLETON := WS_SINGLETON l; wsRef := wsRef l; ws := WS_SINGLETON l;
       reconnectTimer := None; timers := timers l;
       nextTimer := nextTimer l; nextSocket := nextSocket l;
       wsConnected := wsConnected l |} in
  if created (WS_SINGLETON l) ready then connectWebSocket throws l0
  else {| WS_SINGLETON := WS_SINGLETON l0; wsRef := ws l0; ws := ws l0;
          reconnectTimer := reconnectTimer l0; timers := timers l0;
          nextTimer := nextTimer l0; nextSocket := nextSocket l0;
          wsConnected := wsConnected l0 |}.

(** The effect's cleanup: the pending reconnect is cancelled, the socket is
    left open. *)
Definition unmountConnection (l : Link) : Link :=
  {| WS_SINGLETON := WS_SINGLETON l; wsRef := wsRef l; ws := ws l;
     reconnectTimer := reconnectTimer l;
     timers := match reconnectTimer l with
               | Some h => List.filter (fun t => negb (fst t =? h)%nat) (timers l)
               | None => timers l
               end;
     nextTimer := nextTimer l; nextSocket := nextSocket l;
     wsConnected := wsConnected l |}.

(** [connectWebSocket] keeps throwing: the first call and then [n] firings
    of the timer it armed last. *)
Fixpoint retry (n : nat) (l : Link) : Link :=
  match n with
  | O => connectWebSocket true l
  | S n' =>
      let l' := retry n' l in
      match reconnectTimer l' with
      | Some h => fire h true l'
      | None => l'
      end
  end.

(** What the root puts on the socket. *)
Inductive Outbound :=
| bootstrap (username : string) (initial_capital : Z)
| get_snapshot
| place_order (payload : Json)
| switch_user (username : string)
| switch_account (account_id : Z).

(** [wsRef.current && wsRef.current.readyState === WebSocket.OPEN], for the
    ready state of the socket [wsRef] points at. *)
Definition canSend (l : Link) (ready : ReadyState) : bool :=
  bool_decide (is_Some (wsRef l))
  && match ready with OPEN => true | _ => false end.

(** [refreshData] and the snapshot request of [handleAccountUpdated]:
    silent when the socket is not open. *)
Definition refreshData (l : Link) (ready : ReadyState) : list Outbound * list Out :=
  if canSend l ready then ([get_snapshot], []) else ([], []).

(** [placeOrder], [switchUser] and [switchAccount], given whether [send]
    throws: an error toast when the socket is not open. *)
Definition guardedSend (msg : Outbound) (pendingText failedText : string)
    (sendThrows : bool) (l : Link) (ready : ReadyState) : list Outbound * list Out :=
  if negb (canSend l ready) then ([], [toastError "Not connected to server"])
  else if sendThrows then ([], [toastError failedText])
  else ([msg], [toastPlain pendingText]).

Definition placeOrder (payload : Json) :=
  guardedSend (place_order payload) "Placing order..." "Failed to send order".

Definition switchUser (username : string) :=
  guardedSend (switch_user username) "Switching account..." "Failed to switch user".

Definition switchAccount (accountId : Z) :=
  guardedSend (switch_account accountId) "Switching account..." "Failed to switch account".

End AppShell.

(** ** ComprehensiveView.tsx under React's StrictMode

    The root renders inside [<React.StrictMode>], which in development runs
    every effect, its cleanup, and the effect again on mount.  The two runs
    of the polling effect are two closures, each with its own [cancelled],
    over the same refs and cells. *)

Module StrictModePoll.
Import ComprehensiveView.

(** The poller as the closure whose [cancelled] is [c] sees it. *)
Definition seenWith (c : bool) (p : Poller) : Poller :=
  {| view := view p; cancelled := c; inFlightRef := inFlightRef p;
     pollTimeoutRef := pollTimeoutRef p; timeouts := timeouts p;
     nextHandle := nextHandle p; outstanding := outstanding p;
     refreshes := refreshes p |}.

(** Mount, cleanup, mount again, and then the reply to the request of the
    first run, handled by the first closure (whose [cancelled] the cleanup
    has raised); the result is the poller as the second, live closure sees
    it. *)
Definition doubleMount (v : ViewState) (r : Reply) : Poller :=
  let first := runFetch (mount v) in
  let cleaned := cleanup first in
  let second := runFetch (seenWith false cleaned) in
  let settled := step (seenWith true second) (FetchSettles r) in
  seenWith false settled.

End StrictModePoll.

(** * Properties *)

(** ** Series alignment: the nearest candle *)

Module PriceChartFacts.
Import JS PriceChart.

(** Distance in milliseconds between a trade instant and a candle. *)
Definition dist (T : Z) (k : KlineData) : Z := Z.abs (T - klineTime k).

(** What the scan knows after a non-empty prefix [pre] of the series. *)
Definition Nearest (T : Z) (pre : list KlineData) (s : Scan) : Prop :=
  idx s = length pre /\
  exists kc, pre !! closestIndex s = Some kc
    /\ minDiff s = Some (dist T kc)
    /\ (forall j k, pre !! j = Some k -> dist T kc <= dist T k)
    /\ (forall j k, (j < closestIndex s)%nat -> pre !! j = Some k -> dist T kc < dist T k).

Lemma scan_snoc tradeTime pre k :
  scan tradeTime (pre ++ [k]) = scanStep tradeTime (scan tradeTime pre) k.
Proof. unfold scan. now rewrite fold_left_app. Qed.

Lemma scan_idx tradeTime valid : idx (scan tradeTime valid) = length valid.
Proof.
  induction valid as [|k pre IH] using rev_ind; [reflexivity|].
  rewrite scan_snoc, length_app. unfold scanStep.
  destruct (lt_min _ _); simpl; lia.
Qed.

Lemma Nearest_first T k : Nearest T [k] (scan (Some T) [k]).
Proof.
  split; [reflexivity|]. exists k. cbn.
  repeat split.
  - intros [|j] k' Hj; simplify_eq/=; lia.
  - intros j k' Hj. lia.
Qed.

Lemma Nearest_step T pre k s :
  Nearest T pre s -> Nearest T (pre ++ [k]) (scanStep (Some T) s k).
Proof.
  intros (Hidx & kc & Hkc & Hmin & Hle & Hlt).
  unfold scanStep. rewrite Hmin. cbn [abs_diff lt_min].
  fold (dist T k). destruct (dist T k <? dist T kc) eqn:Hcmp.
  - apply Z.ltb_lt in Hcmp. split; [cbn; rewrite length_app; cbn; lia|].
    exists k. cbn [closestIndex minDiff]. rewrite Hidx.
    split; [now rewrite lookup_app_r, Nat.sub_diag by lia|].
    split; [reflexivity|]. split.
    + intros j k' Hj. apply lookup_app_Some in Hj as [Hj|[_ Hj]].
      * specialize (Hle _ _ Hj). lia.
      * apply list_lookup_singleton_Some in Hj as [_ <-]. lia.
    + intros j k' Hjlt Hj. rewrite lookup_app_l in Hj by lia.
      specialize (Hle _ _ Hj). lia.
  - apply Z.ltb_ge in Hcmp. split; [cbn; rewrite length_app; cbn; lia|].
    exists kc. cbn [closestIndex minDiff].
    split; [rewrite lookup_app_l; [exact Hkc | now apply lookup_lt_Some in Hkc]|].
    split; [reflexivity|]. split.
    + intros j k' Hj. apply lookup_app_Some in Hj as [Hj|[_ Hj]].
      * eauto.
      * apply list_lookup_singleton_Some in Hj as [_ <-]. lia.
    + intros j k' Hjlt Hj. apply lookup_lt_Some in Hkc.
      rewrite lookup_app_l in Hj by lia. eauto.
Qed.

Lemma scan_Nearest T valid : valid <> [] -> Nearest T valid (scan (Some T) valid).
Proof.
  induction valid as [|k pre IH] using rev_ind; [congruence|]. intros _.
  destruct pre as [|k0 pre'].
  - apply Nearest_first.
  - rewrite scan_snoc. apply Nearest_step, IH. discriminate.
Qed.

(** A candle that only carries a [timestamp] (epoch seconds). *)
Definition candleAt (t : Z) : KlineData :=
  {| timestamp := Some t; datetime := None; open := None; high := None;
     low := None; close := Some 1%Q; volume := None |}.

(** C4.  For a non-empty series and a trade instant [T] (milliseconds),
    [nearestIndex] is an index of the series whose candle minimises the
    distance [|T - klineTime|], the candle's instant being its timestamp in
    milliseconds, and every candle at a lower index is strictly farther:
    ties go to the first occurrence.  For candles at 100 s, 200 s and 300 s
    and a trade at 180 s the index is 1. *)
Theorem nearestIndex_argmin_first (valid : list KlineData) (T : Z) :
  valid <> [] ->
  (exists kc, valid !! nearestIndex valid (Some T) = Some kc
     /\ (forall j k, valid !! j = Some k ->
           Z.abs (T - klineTime kc) <= Z.abs (T - klineTime k))
     /\ (forall j k, (j < nearestIndex valid (Some T))%nat -> valid !! j = Some k ->
           Z.abs (T - klineTime kc) < Z.abs (T - klineTime k)))
  /\ nearestIndex [candleAt 100; candleAt 200; candleAt 300] (Some 180000) = 1%nat.
Proof.
  intros Hne. split; [|reflexivity].
  destruct (scan_Nearest T valid Hne) as (_ & kc & Hkc & _ & Hle & Hlt).
  exists kc. unfold nearestIndex. repeat split; assumption.
Qed.

(** Two candles at the same distance: the earlier one is returned. *)
Example nearestIndex_tie :
  nearestIndex [candleAt 100; candleAt 200; candleAt 300] (Some 150000) = 0%nat
  /\ nearestIndex [candleAt 100; candleAt 200; candleAt 300] (Some 250000) = 1%nat.
Proof. split; reflexivity. Qed.

(** The chart is drawn only over a non-empty series of valid candles. *)
Lemma render_series_nonempty `{DateParser} sym mkt rs loading error klineData trades c :
  render sym mkt rs loading error klineData trades = Some c ->
  validKlineData rs klineData <> [].
Proof.
  unfold render. intros Hr Hnil. rewrite Hnil in Hr. cbn in Hr.
  destruct (loading && isEmpty klineData); [discriminate|].
  destruct (truthy_opt error || isEmpty klineData); discriminate.
Qed.

(** *** Marker channels *)

Lemma elem_of_filter_bool {A} (f : A -> bool) (l : list A) (a : A) :
  a ∈ List.filter f l <-> a ∈ l /\ f a = true.
Proof. rewrite !list_elem_of_In. apply filter_In. Qed.

Lemma sell_not_buy t : isSellSide t = true -> isBuySide t = false.
Proof.
  unfold isSellSide, isBuySide. intros Hs.
  apply orb_true_iff in Hs as [Hs|Hs]; apply String.eqb_eq in Hs; now rewrite Hs.
Qed.

Section Markers.
Context `{DateParser}.
Variable valid : list KlineData.

Lemma markers_snoc trades t :
  markers valid (trades ++ [t]) = pushMarker valid (markers valid trades) t.
Proof. unfold markers. now rewrite fold_left_app. Qed.

Lemma markers_filter trades :
  markers valid trades
  = (map (markerOf valid) (List.filter isBuySide trades),
     map (markerOf valid) (List.filter isSellSide trades)).
Proof.
  induction trades as [|t pre IH] using rev_ind; [reflexivity|].
  rewrite markers_snoc, IH, !List.filter_app, !map_app. unfold pushMarker. cbn.
  destruct (isSellSide t) eqn:Hs.
  - rewrite (sell_not_buy t Hs). cbn. now rewrite app_nil_r.
  - destruct (isBuySide t); cbn; now rewrite ?app_nil_r.
Qed.

End Markers.

Lemma channel_snoc n ms m : channel n (ms ++ [m]) = writeMarker (channel n ms) m.
Proof. unfold channel. now rewrite fold_left_app. Qed.

Lemma channel_length n ms : length (channel n ms) = n.
Proof.
  induction ms as [|m pre IH] using rev_ind.
  - apply length_replicate.
  - rewrite channel_snoc. unfold writeMarker.
    case_bool_decide; [rewrite length_insert|]; exact IH.
Qed.

(** A slot holds the value of the last marker written to it, if any. *)
Lemma channel_lookup n ms i :
  (i < n)%nat ->
  channel n ms !! i = Some (y <$> last (List.filter (fun m => (x m =? i)%nat) ms)).
Proof.
  intros Hi. induction ms as [|m pre IH] using rev_ind.
  - cbn. unfold channel. cbn. now rewrite lookup_replicate_2.
  - rewrite channel_snoc, List.filter_app. unfold writeMarker. cbn [List.filter].
    rewrite channel_length. destruct (x m =? i)%nat eqn:Hx.
    + apply Nat.eqb_eq in Hx. subst i. rewrite bool_decide_true by exact Hi.
      rewrite last_snoc. cbn.
      now rewrite list_lookup_insert_eq by (rewrite channel_length; exact Hi).
    + apply Nat.eqb_neq in Hx. rewrite app_nil_r.
      case_bool_decide; [|exact IH].
      now rewrite list_lookup_insert_ne.
Qed.

Lemma filter_map_comm {A B} (f : A -> B) (p : B -> bool) (l : list A) :
  List.filter p (map f l) = map f (List.filter (fun a => p (f a)) l).
Proof.
  induction l as [|a l IH]; [reflexivity|]. cbn.
  destruct (p (f a)); cbn; now rewrite IH.
Qed.

Lemma filter_filter_and {A} (p q : A -> bool) (l : list A) :
  List.filter p (List.filter q l) = List.filter (fun a => q a && p a) l.
Proof.
  induction l as [|a l IH]; [reflexivity|]. cbn.
  destruct (q a); cbn; [destruct (p a)|]; now rewrite IH.
Qed.

Lemma last_map {A B} (f : A -> B) (l : list A) : last (map f l) = f <$> last l.
Proof.
  induction l as [|a l IH] using rev_ind; [reflexivity|].
  rewrite map_app. cbn [map]. now rewrite !last_snoc.
Qed.

(** C9.  In the alignment of the chart, the buy channel receives the markers
    of exactly the trades with side BUY or LONG and the sell channel those of
    the trades with side SELL or SHORT, in processing order; and slot [i] of a
    channel holds the price of the last processed trade of that channel
    whose nearest candle is [i] (nothing when there is none): the last write
    wins. *)
Theorem align_last_write_wins `{DateParser} (sym mkt : string)
    (rs : option ReplayState) (klineData : list KlineData) (trades : list Trade)
    (i : nat) :
  (i < length (validKlineData rs klineData))%nat ->
  buyMarkers (validKlineData rs klineData) (symbolTrades sym mkt rs trades)
    = map (markerOf (validKlineData rs klineData))
          (List.filter isBuySide (symbolTrades sym mkt rs trades))
  /\ sellMarkers (validKlineData rs klineData) (symbolTrades sym mkt rs trades)
    = map (markerOf (validKlineData rs klineData))
          (List.filter isSellSide (symbolTrades sym mkt rs trades))
  /\ buyData sym mkt rs klineData trades !! i
    = Some (price <$> last (List.filter
        (fun t => isBuySide t
           && (nearestIndex (validKlineData rs klineData)
                 (Date_getTime (trade_time t)) =? i)%nat)
        (symbolTrades sym mkt rs trades)))
  /\ sellData sym mkt rs klineData trades !! i
    = Some (price <$> last (List.filter
        (fun t => isSellSide t
           && (nearestIndex (validKlineData rs klineData)
                 (Date_getTime (trade_time t)) =? i)%nat)
        (symbolTrades sym mkt rs trades))).
Proof.
  intros Hi. unfold buyData, sellData, buyMarkers, sellMarkers.
  rewrite markers_filter. cbn [fst snd]. unfold prices. rewrite length_map.
  repeat split.
  - rewrite channel_lookup by exact Hi.
    rewrite filter_map_comm, filter_filter_and, last_map, <- option_fmap_compose.
    reflexivity.
  - rewrite channel_lookup by exact Hi.
    rewrite filter_map_comm, filter_filter_and, last_map, <- option_fmap_compose.
    reflexivity.
Qed.

(** *** The replay window *)

Section Window.
Context `{DateParser}.
Variables sym mkt : string.

Lemma truthy_true s : s <> "" -> truthy s = true.
Proof. intros Hs. unfold truthy. now apply negb_true_iff, String.eqb_neq. Qed.

Lemma window_known clock :
  start_date clock <> "" -> current_date clock <> "" ->
  let rs := Some {| active := true; state := Some clock |} in
  isReplayActive rs = true
  /\ replayStartDate rs = Some (start_date clock)
  /\ replayCurrentDate rs = Some (current_date clock).
Proof.
  intros Hs Hc. cbn. now rewrite !truthy_true.
Qed.

Lemma num_window (a lo hi : option Z) :
  num_ge a lo && num_le a hi = true <->
  exists t s c, a = Some t /\ lo = Some s /\ hi = Some c /\ s <= t <= c.
Proof.
  split.
  - intros Hb. apply andb_true_iff in Hb as [Hge Hle].
    destruct a as [t|], lo as [s|], hi as [c|]; try discriminate.
    cbn in Hge, Hle. exists t, s, c. repeat split; lia.
  - intros (t & s & c & -> & -> & -> & Hlo & Hhi). cbn.
    apply andb_true_iff. split; lia.
Qed.

Lemma keepTrade_window clock t :
  start_date clock <> "" -> current_date clock <> "" ->
  keepTrade sym mkt (Some {| active := true; state := Some clock |}) t = true <->
  symbolMatch sym mkt t = true
  /\ exists tt s c, Date_getTime (trade_time t) = Some tt
       /\ Date_getTime (start_date clock) = Some s
       /\ Date_getTime (current_date clock) = Some c
       /\ s <= tt <= c.
Proof.
  intros Hs Hc. destruct (window_known clock Hs Hc) as (Ha & Hsd & Hcd).
  unfold keepTrade, replayWindowKnown. rewrite Ha, Hsd, Hcd. cbn.
  destruct (symbolMatch sym mkt t); cbn.
  - rewrite num_window. tauto.
  - split; [discriminate|]. now intros [? _].
Qed.

Lemma keepTrade_inactive rs t :
  isReplayActive rs = false -> keepTrade sym mkt rs t = symbolMatch sym mkt t.
Proof.
  intros Ha. unfold keepTrade, replayWindowKnown. rewrite Ha. cbn.
  now destruct (symbolMatch sym mkt t).
Qed.

Lemma keepKline_inactive rs k :
  isReplayActive rs = false -> keepKline rs k = isValidPrice k.
Proof.
  intros Ha. unfold keepKline. rewrite Ha. cbn. now destruct (isValidPrice k).
Qed.

Lemma keepKline_window clock k :
  start_date clock <> "" -> current_date clock <> "" ->
  keepKline (Some {| active := true; state := Some clock |}) k = true <->
  isValidPrice k = true
  /\ exists t s c, klineTimeOf k = Some t
       /\ Date_getTime (start_date clock) = Some s
       /\ Date_getTime (current_date clock) = Some c
       /\ s - LOOKBACK_MS <= t <= c.
Proof.
  intros Hs Hc. destruct (window_known clock Hs Hc) as (Ha & Hsd & Hcd).
  unfold keepKline. rewrite Ha, Hsd, Hcd. cbn.
  destruct (isValidPrice k); cbn; [|split; [discriminate|now intros [? _]]].
  rewrite andb_comm, num_window. split.
  - intros (t & s' & c & Ht & Hs' & Hc' & Hr).
    destruct (Date_getTime (start_date clock)) as [s|]; [|discriminate].
    injection Hs' as <-. split; [reflexivity|]. now exists t, s, c.
  - intros (_ & t & s & c & Ht & -> & Hc' & Hr). now exists t, (s - LOOKBACK_MS), c.
Qed.

End Window.

(** A trade kept for the chart is aligned: its marker, at the index of its
    nearest candle and at its price, is pushed on the channel of its side. *)
Lemma kept_trade_is_aligned `{DateParser} (valid : list KlineData)
    (sts : list Trade) (t : Trade) :
  t ∈ sts ->
  (isBuySide t = true ->
     {| x := nearestIndex valid (Date_getTime (trade_time t)); y := price t |}
       ∈ buyMarkers valid sts)
  /\ (isSellSide t = true ->
     {| x := nearestIndex valid (Date_getTime (trade_time t)); y := price t |}
       ∈ sellMarkers valid sts).
Proof.
  intros Ht. unfold buyMarkers, sellMarkers. rewrite markers_filter. cbn [fst snd].
  split; intros Hside; apply list_elem_of_fmap; exists t;
    (split; [reflexivity|]); apply elem_of_filter_bool; now split.
Qed.

(** C10.  While replay is active and the clock carries a start date and a
    current date, every trade kept for alignment, and so every trade behind a
    marker of either channel, matches the chart's symbol and has its instant
    between the replay start and the replay's current date (bounds included),
    and every trade so kept is aligned: a BUY or LONG has its marker, at the
    index of its nearest candle, in the buy channel, a SELL or SHORT in the
    sell channel.  While replay is not active, the trades kept are exactly the
    symbol-matching ones, and every symbol-matching trade is aligned in the
    same way. *)
Theorem replay_window_trades `{DateParser} (sym mkt : string)
    (rs : option ReplayState) (valid : list KlineData) (trades : list Trade) :
  (forall clock, rs = Some {| active := true; state := Some clock |} ->
     start_date clock <> "" -> current_date clock <> "" ->
     (forall t, t ∈ symbolTrades sym mkt rs trades <->
        t ∈ trades /\ symbolMatch sym mkt t = true
        /\ exists tt s c, Date_getTime (trade_time t) = Some tt
             /\ Date_getTime (start_date clock) = Some s
             /\ Date_getTime (current_date clock) = Some c
             /\ s <= tt <= c)
     /\ (forall m, m ∈ buyMarkers valid (symbolTrades sym mkt rs trades)
                     ++ sellMarkers valid (symbolTrades sym mkt rs trades) ->
        exists t tt s c, t ∈ trades /\ m = markerOf valid t
             /\ Date_getTime (trade_time t) = Some tt
             /\ Date_getTime (start_date clock) = Some s
             /\ Date_getTime (current_date clock) = Some c
             /\ s <= tt <= c)
     /\ (forall t, t ∈ symbolTrades sym mkt rs trades ->
        (isBuySide t = true ->
           {| x := nearestIndex valid (Date_getTime (trade_time t)); y := price t |}
             ∈ buyMarkers valid (symbolTrades sym mkt rs trades))
        /\ (isSellSide t = true ->
           {| x := nearestIndex valid (Date_getTime (trade_time t)); y := price t |}
             ∈ sellMarkers valid (symbolTrades sym mkt rs trades))))
  /\ (isReplayActive rs = false ->
      symbolTrades sym mkt rs trades = List.filter (symbolMatch sym mkt) trades
      /\ (forall t, t ∈ trades -> symbolMatch sym mkt t = true ->
          (isBuySide t = true ->
             {| x := nearestIndex valid (Date_getTime (trade_time t)); y := price t |}
               ∈ buyMarkers valid (symbolTrades sym mkt rs trades))
          /\ (isSellSide t = true ->
             {| x := nearestIndex valid (Date_getTime (trade_time t)); y := price t |}
               ∈ sellMarkers valid (symbolTrades sym mkt rs trades)))
      /\ (forall m, m ∈ buyMarkers valid (symbolTrades sym mkt rs trades)
                      ++ sellMarkers valid (symbolTrades sym mkt rs trades) ->
          exists t, t ∈ trades /\ symbolMatch sym mkt t = true
                    /\ m = markerOf valid t)).
Proof.
  split.
  - intros clock -> Hs Hc.
    assert (Hin : forall t,
      t ∈ symbolTrades sym mkt (Some {| active := true; state := Some clock |}) trades <->
        t ∈ trades /\ symbolMatch sym mkt t = true
        /\ exists tt s c, Date_getTime (trade_time t) = Some tt
             /\ Date_getTime (start_date clock) = Some s
             /\ Date_getTime (current_date clock) = Some c
             /\ s <= tt <= c).
    { intros t. unfold symbolTrades.
      rewrite elem_of_filter_bool, (keepTrade_window sym mkt clock t Hs Hc). tauto. }
    split; [exact Hin|]. split; [|intros t Ht; now apply kept_trade_is_aligned].
    intros m Hm. unfold buyMarkers, sellMarkers in Hm.
    rewrite markers_filter in Hm. cbn [fst snd] in Hm.
    assert (Ht : exists t, m = markerOf valid t
      /\ t ∈ symbolTrades sym mkt (Some {| active := true; state := Some clock |}) trades).
    { apply elem_of_app in Hm as [Hm|Hm];
        apply list_elem_of_fmap in Hm as (t & -> & Ht);
        apply elem_of_filter_bool in Ht as [Ht _]; eauto. }
    destruct Ht as (t & -> & Ht). apply Hin in Ht as (Ht & _ & tt & s & c & Hw).
    exists t, tt, s, c. tauto.
  - intros Ha.
    assert (Heq : symbolTrades sym mkt rs trades
                  = List.filter (symbolMatch sym mkt) trades).
    { unfold symbolTrades. apply List.filter_ext.
      intros t. now apply keepTrade_inactive. }
    split; [exact Heq|]. split.
    + intros t Ht Hm. apply kept_trade_is_aligned.
      rewrite Heq. apply elem_of_filter_bool. now split.
    + intros m Hm. unfold buyMarkers, sellMarkers in Hm.
      rewrite markers_filter in Hm. cbn [fst snd] in Hm. rewrite Heq in Hm.
      apply elem_of_app in Hm as [Hm|Hm];
        apply list_elem_of_fmap in Hm as (t & -> & Ht);
        apply elem_of_filter_bool in Ht as [Ht _];
        apply elem_of_filter_bool in Ht as [Ht Hsym]; eauto.
Qed.

(** C5, as the component has it.  While replay is active and the clock
    carries a start date and a current date, the series kept for the chart is
    exactly the candles with a valid price whose instant lies between thirty
    days before the replay start and the replay's current date (bounds
    included); while replay is not active it is exactly the candles with a
    valid price. *)
Theorem validKlineData_replay_window `{DateParser}
    (rs : option ReplayState) (klineData : list KlineData) :
  (forall clock, rs = Some {| active := true; state := Some clock |} ->
     start_date clock <> "" -> current_date clock <> "" ->
     forall k, k ∈ validKlineData rs klineData <->
       k ∈ klineData /\ isValidPrice k = true
       /\ exists t s c, klineTimeOf k = Some t
            /\ Date_getTime (start_date clock) = Some s
            /\ Date_getTime (current_date clock) = Some c
            /\ s - 2592000000 <= t <= c)
  /\ (isReplayActive rs = false ->
      validKlineData rs klineData = List.filter isValidPrice klineData).
Proof.
  split.
  - intros clock -> Hs Hc k. unfold validKlineData.
    rewrite elem_of_filter_bool, (keepKline_window clock k Hs Hc).
    change LOOKBACK_MS with 2592000000. tauto.
  - intros Ha. unfold validKlineData. apply List.filter_ext.
    intros k. now apply keepKline_inactive.
Qed.

End PriceChartFacts.

(** ** The replay clock controller *)

Module ComprehensiveViewFacts.
Import JS ComprehensiveView.

(** *** Polls never overlap *)

(** The flag and the wire agree: a request is out exactly when the flag is up. *)
Definition Guarded (p : Poller) : Prop :=
  outstanding p = if inFlightRef p then 1%nat else 0%nat.

Lemma scheduleNext_flags delay p :
  inFlightRef (scheduleNext delay p) = inFlightRef p
  /\ outstanding (scheduleNext delay p) = outstanding p
  /\ cancelled (scheduleNext delay p) = cancelled p.
Proof. unfold scheduleNext. destruct (cancelled p) eqn:Hc; cbn; auto. Qed.

Lemma runFetch_Guarded p : Guarded p -> Guarded (runFetch p).
Proof.
  unfold Guarded, runFetch. intros Hg.
  destruct (cancelled p), (inFlightRef p) eqn:Hf; cbn; rewrite ?Hf; congruence.
Qed.

Lemma afterReply_flags r p :
  inFlightRef (afterReply r p) = inFlightRef p
  /\ outstanding (afterReply r p) = outstanding p.
Proof.
  unfold afterReply. destruct (cancelled p); [easy|].
  destruct r; split; now rewrite ?(proj1 (scheduleNext_flags _ _)),
                               ?(proj1 (proj2 (scheduleNext_flags _ _))).
Qed.

Lemma step_Guarded p e : Guarded p -> Guarded (step p e).
Proof.
  intros Hg. destruct e as [|h|r|]; cbn [step].
  - now apply runFetch_Guarded.
  - destruct (pending h (timeouts p)); [|exact Hg].
    apply runFetch_Guarded. exact Hg.
  - destruct (outstanding p =? 0)%nat eqn:Hz; [exact Hg|].
    apply Nat.eqb_neq in Hz. unfold Guarded in *.
    destruct (inFlightRef p); [|congruence].
    unfold resume. cbn [inFlightRef outstanding].
    rewrite (proj2 (afterReply_flags _ _)). cbn. now rewrite Hg.
  - exact Hg.
Qed.

Lemma run_Guarded es : forall p, Guarded p -> Guarded (run p es).
Proof.
  induction es as [|e es IH]; intros p Hg; [exact Hg|].
  apply IH, step_Guarded, Hg.
Qed.

(** C2.  Whatever the event loop runs after the polling effect has mounted
    (calls of [runFetch], timers firing, requests settling, the cleanup, in
    any order), at most one [getReplayState] request of the poll is
    outstanding; and when a poll is in flight, a further [runFetch] changes
    nothing and a poll timer that fires sends no request and arms no timer:
    the tick is skipped, not queued. *)
Theorem poll_never_overlaps (v : ViewState) (es : list Event) :
  (outstanding (run (mount v) es) <= 1)%nat
  /\ (inFlightRef (run (mount v) es) = true ->
      outstanding (run (mount v) es) = 1%nat
      /\ runFetch (run (mount v) es) = run (mount v) es
      /\ forall h,
           outstanding (step (run (mount v) es) (TimeoutFires h)) = 1%nat
           /\ nextHandle (step (run (mount v) es) (TimeoutFires h))
              = nextHandle (run (mount v) es)
           /\ length (timeouts (step (run (mount v) es) (TimeoutFires h)))
              <= length (timeouts (run (mount v) es)))%nat.
Proof.
  assert (Hg : Guarded (run (mount v) es)) by (apply run_Guarded; reflexivity).
  set (p := run (mount v) es) in *. unfold Guarded in Hg. split.
  - destruct (inFlightRef p); lia.
  - intros Hf. rewrite Hf in Hg. split; [exact Hg|]. split.
    + unfold runFetch. now rewrite Hf, orb_true_r.
    + intros h. cbn [step]. destruct (pending h (timeouts p)).
      * unfold onTimeout, runFetch. cbn. rewrite Hf, orb_true_r. cbn.
        repeat split; [exact Hg|]. unfold clearTimeout. apply List.filter_length_le.
      * repeat split; [exact Hg|lia].
Qed.

(** *** Cadence *)

(** The delay the poll arms after a reply. *)
Definition delayAfter (r : Reply) : Z :=
  match r with Fulfilled _ => 10000 | Rejected _ => 30000 end.

(** Drive the poller through successive replies: each reply must leave
    exactly one timer pending, the one [pollTimeoutRef] holds; its delay is
    recorded, and it fires before the next reply. *)
Fixpoint cadence (rs : list Reply) (p : Poller) : list Z :=
  match rs with
  | [] => []
  | r :: rs' =>
      let p1 := step p (FetchSettles r) in
      match pollTimeoutRef p1, timeouts p1 with
      | Some h, [(h', d)] =>
          if (h =? h')%nat && inFlightRef (step p1 (TimeoutFires h))
          then d :: cadence rs' (step p1 (TimeoutFires h))
          else []
      | _, _ => []
      end
  end.

(** A poll is on the wire and nothing else is pending. *)
Definition Polling (p : Poller) : Prop :=
  cancelled p = false /\ inFlightRef p = true /\ outstanding p = 1%nat
  /\ timeouts p = [].

Lemma Polling_round r p :
  Polling p ->
  let p1 := step p (FetchSettles r) in
  pollTimeoutRef p1 = Some (nextHandle p)
  /\ timeouts p1 = [(nextHandle p, delayAfter r)]
  /\ inFlightRef p1 = false /\ outstanding p1 = 0%nat
  /\ Polling (step p1 (TimeoutFires (nextHandle p))).
Proof.
  intros (Hc & Hf & Ho & Ht). destruct p as [v c f ref ts nh o rf].
  cbn in Hc, Hf, Ho, Ht. subst c f o ts.
  destruct r as [st|msg]; cbn; rewrite Nat.eqb_refl; cbn; repeat split.
Qed.

Lemma cadence_Polling rs : forall p, Polling p -> cadence rs p = map delayAfter rs.
Proof.
  induction rs as [|r rs IH]; intros p Hp; [reflexivity|].
  destruct (Polling_round r p Hp) as (Href & Hts & _ & _ & Hnext).
  cbn [cadence map]. rewrite Href, Hts, Nat.eqb_refl.
  rewrite (proj1 (proj2 Hnext)). cbn.
  f_equal. apply IH, Hnext.
Qed.

(** C7.  Once the effect has mounted and sent its first poll, every reply
    arms exactly one timer for the next poll: 10000 ms after a success,
    30000 ms after a failure.  So a run of failures keeps the poll at the
    30-second delay, and the first success brings it back to 10 seconds. *)
Theorem poll_cadence (v : ViewState) (rs : list Reply) :
  outstanding (run (mount v) [RunFetch]) = 1%nat
  /\ cadence rs (run (mount v) [RunFetch]) = map delayAfter rs
  /\ (forall (n : nat) (st : ReplayState) (m : option string),
        cadence (replicate n (Rejected m) ++ [Fulfilled st; Fulfilled st])
                (run (mount v) [RunFetch])
        = replicate n 30000 ++ [10000; 10000]).
Proof.
  assert (Hp : Polling (run (mount v) [RunFetch])) by (cbn; repeat split).
  split; [reflexivity|]. split; [now apply cadence_Polling|].
  intros n st m. rewrite cadence_Polling by exact Hp.
  rewrite map_app. cbn. f_equal.
  induction n as [|n IH]; [reflexivity|]. cbn. now rewrite IH.
Qed.

(** *** Auto-advance *)

Lemma sameDeps_speed (clock clock' : ReplayClock) :
  ~ (speed_multiplier clock == speed_multiplier clock')%Q ->
  sameDeps (autoAdvanceDeps (Some {| active := true; state := Some clock |}))
           (autoAdvanceDeps (Some {| active := true; state := Some clock' |})) = false.
Proof.
  intros Hne. unfold sameDeps. cbn.
  destruct (Qeq_bool _ _) eqn:Hq; [|reflexivity].
  now apply Qeq_bool_iff in Hq.
Qed.

(** C1, as the component has it.  While the replay state is active, the
    auto-advance timer is armed with a period of 2000 ms per simulated day of
    the trading interval, divided by the speed multiplier (so period x speed
    is 2000 ms x days), and each tick starts by calling [advanceReplay] with
    the interval in seconds (days x 86400).  When a render brings another
    speed multiplier, the running timer is cleared and a new one is armed
    with the period of the new clock, so a single timer runs; when the replay
    state is gone, no timer runs. *)
Theorem autoAdvance_timer (clock clock' : ReplayClock) :
  (0 < speed_multiplier clock)%Q ->
  (0 < speed_multiplier clock')%Q ->
  ~ (speed_multiplier clock == speed_multiplier clock')%Q ->
  exists iv iv',
    autoAdvance (Some {| active := true; state := Some clock |}) = Some iv
    /\ (speedMs iv == inject_Z (2000 * or_num (trading_interval_days clock) 1)
                      / speed_multiplier clock)%Q
    /\ (speedMs iv * speed_multiplier clock
        == inject_Z (2000 * or_num (trading_interval_days clock) 1))%Q
    /\ tradingIntervalSeconds iv = or_num (trading_interval_days clock) 1 * 86400
    /\ (forall advanced r v,
          head (snd (tick iv advanced r v))
          = Some (advanceReplay (or_num (trading_interval_days clock) 1 * 86400)))
    /\ intervals (commit (Some {| active := true; state := Some clock |}) unmounted)
       = [(1%nat, iv)]
    /\ autoAdvance (Some {| active := true; state := Some clock' |}) = Some iv'
    /\ (speedMs iv' * speed_multiplier clock'
        == inject_Z (2000 * or_num (trading_interval_days clock') 1))%Q
    /\ intervals (commit (Some {| active := true; state := Some clock' |})
                    (commit (Some {| active := true; state := Some clock |}) unmounted))
       = [(2%nat, iv')]
    /\ intervals (commit None
                    (commit (Some {| active := true; state := Some clock |}) unmounted))
       = [].
Proof.
  intros Hpos Hpos' Hne.
  assert (Hmul : forall c : ReplayClock, (0 < speed_multiplier c)%Q ->
    (inject_Z (BASE_MS_PER_DAY * or_num (trading_interval_days c) 1)
       / speed_multiplier c * speed_multiplier c
     == inject_Z (2000 * or_num (trading_interval_days c) 1))%Q).
  { intros c Hc. rewrite Qmult_comm, Qmult_div_r; [reflexivity|].
    intros Hz. rewrite Hz in Hc. discriminate Hc. }
  eexists. eexists.
  split; [reflexivity|]. split; [reflexivity|].
  split; [exact (Hmul clock Hpos)|]. split; [reflexivity|].
  split; [intros [] [] v; reflexivity|].
  split; [reflexivity|]. split; [reflexivity|].
  split; [exact (Hmul clock' Hpos')|].
  split.
  - unfold commit at 1. cbn [commit unmounted lastDeps].
    cbn [lastDeps armed intervals nextInterval autoAdvance active state].
    rewrite (sameDeps_speed clock clock' Hne). reflexivity.
  - reflexivity.
Qed.

(** *** Start validation *)

(** A start date and an end date the spec calls invalid: one of them is
    missing, or both are dates and the start is not before the end. *)
Definition badWindow `{DateParser} (startDate endDate : string) : Prop :=
  startDate = "" \/ endDate = ""
  \/ exists a b, Date_getTime startDate = Some a /\ Date_getTime endDate = Some b
                 /\ a >= b.

Lemma badWindow_guard `{DateParser} (s e : string) :
  badWindow s e ->
  negb (truthy s) || negb (truthy e) = true
  \/ (negb (truthy s) || negb (truthy e) = false
      /\ num_ge (Date_getTime s) (Date_getTime e) = true).
Proof.
  intros Hbad. destruct (negb (truthy s) || negb (truthy e)) eqn:Hg; [now left|right].
  split; [reflexivity|].
  apply orb_false_iff in Hg as [Hs He].
  apply negb_false_iff, negb_true_iff, String.eqb_neq in Hs.
  apply negb_false_iff, negb_true_iff, String.eqb_neq in He.
  destruct Hbad as [->|[->|(a & b & -> & -> & Hab)]]; [congruence..|].
  cbn. lia.
Qed.

(** C6.  When the start or the end date is missing, or the start date is not
    before the end date, [handleStart] (of the view and of the dialog alike)
    returns with the component's cells unchanged after one error toast:
    no request is sent, [startReplay] in particular, however the network
    would have answered. *)
Theorem handleStart_rejects_bad_window `{DateParser}
    (v : ViewState) (d : ReplayModeDialog.DialogState)
    (reply : StartResult) (failure : option (option string)) (r : Reply) :
  badWindow (startDate v) (endDate v) ->
  badWindow (ReplayModeDialog.startDate d) (ReplayModeDialog.endDate d) ->
  (exists msg, handleStart reply v = (v, [toastError msg]))
  /\ existsb isNetworkCall (snd (handleStart reply v)) = false
  /\ (exists msg, ReplayModeDialog.handleStart failure r d = (d, [toastError msg]))
  /\ existsb isNetworkCall (snd (ReplayModeDialog.handleStart failure r d)) = false.
Proof.
  intros Hv Hd.
  apply badWindow_guard in Hv. apply badWindow_guard in Hd.
  unfold handleStart, ReplayModeDialog.handleStart.
  destruct Hv as [->|[-> ->]], Hd as [->|[-> ->]]; cbn; eauto 10.
Qed.

End ComprehensiveViewFacts.

(** ** The push channel *)

Module AppFacts.
Import JS App.

(** C3.  A close event whose code is neither 1000 nor 1001 arms exactly one
    timer, 3000 ms long, whose callback reconnects; when it fires, exactly
    one new socket is opened.  A close with code 1000 or 1001 arms nothing.
    So it is for the abnormal code 1006 and for the normal codes 1000 and
    1001. *)
Theorem handleClose_reconnect (code : Z) (l : Link) :
  timers (handleClose code l)
    = timers l ++ (if (code =? 1000) || (code =? 1001) then []
                   else [(nextTimer l, 3000)])
  /\ nextSocket (handleClose code l) = nextSocket l
  /\ timers (handleClose 1006 l) = timers l ++ [(nextTimer l, 3000)]
  /\ reconnectTimer (handleClose 1006 l) = Some (nextTimer l)
  /\ timers (handleClose 1000 l) = timers l
  /\ timers (handleClose 1001 l) = timers l
  /\ WS_SINGLETON (fire (nextTimer l) false (handleClose 1006 l))
     = Some (nextSocket l)
  /\ nextSocket (fire (nextTimer l) false (handleClose 1006 l)) = S (nextSocket l)
  /\ length (timers (fire (nextTimer l) false (handleClose 1006 l)))
     = length (List.filter (fun t => negb (fst t =? nextTimer l)%nat) (timers l)).
Proof.
  split.
  { unfold handleClose. destruct (code =? 1000), (code =? 1001); cbn;
      now rewrite ?app_nil_r. }
  split.
  { unfold handleClose. now destruct (negb (code =? 1000) && negb (code =? 1001)). }
  split; [reflexivity|]. split; [reflexivity|].
  split; [reflexivity|]. split; [reflexivity|].
  assert (Hp : existsb (fun t : nat * Z => (fst t =? nextTimer l)%nat)
                 (timers l ++ [(nextTimer l, 3000)]) = true).
  { rewrite existsb_app. cbn. rewrite Nat.eqb_refl. now rewrite orb_true_r. }
  unfold fire, handleClose. cbn. rewrite Hp. cbn.
  split; [reflexivity|]. split; [reflexivity|].
  rewrite List.filter_app. cbn. rewrite Nat.eqb_refl. cbn. now rewrite app_nil_r.
Qed.

(** C8, as the handler has it.  A snapshot message ([snapshot],
    [snapshot_full] or [snapshot_fast]) sets the overview, positions and
    orders to what the message holds (so to nothing when the message omits
    them), sets the trades and the AI decisions to the message's lists, or to
    the empty list when the message omits them, and keeps the previous
    equity curves when the message brings none; user, account and the
    connection error are untouched, and nothing is sent. *)
Theorem snapshot_replaces_slices (msg : Msg.t) (s : Snapshot) :
  isSnapshotType (Msg.type msg) = true ->
  overview (fst (handleMessage msg s)) = Msg.overview msg
  /\ positions (fst (handleMessage msg s)) = Msg.positions msg
  /\ orders (fst (handleMessage msg s)) = Msg.orders msg
  /\ trades (fst (handleMessage msg s))
     = match Msg.trades msg with Some t => t | None => [] end
  /\ aiDecisions (fst (handleMessage msg s))
     = match Msg.ai_decisions msg with Some a => a | None => [] end
  /\ allAssetCurves (fst (handleMessage msg s))
     = match Msg.all_asset_curves msg with
       | Some curves => curves
       | None => allAssetCurves s
       end
  /\ user (fst (handleMessage msg s)) = user s
  /\ account (fst (handleMessage msg s)) = account s
  /\ wsError (fst (handleMessage msg s)) = wsError s
  /\ snd (handleMessage msg s) = [].
Proof.
  intros Hty. unfold handleMessage.
  assert (Hb : String.eqb (Msg.type msg) "bootstrap_ok" = false).
  { unfold isSnapshotType in Hty. destruct (String.eqb_spec (Msg.type msg) "bootstrap_ok") as [E|]; [|reflexivity].
    rewrite E in Hty. discriminate. }
  rewrite Hb, Hty. cbn. unfold default. repeat split.
Qed.

End AppFacts.

(** ** The properties at concrete inputs *)

Module Examples.
Import JS.

#[local] Existing Instance isoDate.

(** A replay of January 2024 that has reached the 8th. *)
Definition january (speed : Q) (days : option Z) : ReplayClock :=
  {| start_date := "2024-01-01T00:00:00Z";
     end_date := "2024-01-31T23:59:59Z";
     current_date := "2024-01-08T00:00:00Z";
     speed_multiplier := speed;
     trading_interval_days := days;
     progress := None |}.

Definition replaying (clock : ReplayClock) : option ReplayState :=
  Some {| active := true; state := Some clock |}.

Definition candle (t : Z) (p : Q) : KlineData :=
  {| timestamp := Some t; datetime := None; open := None; high := None;
     low := None; close := Some p; volume := None |}.

(** Daily candles of 1, 2 and 3 January 2024 (epoch seconds). *)
Definition threeDays : list KlineData :=
  [candle 1704067200 100; candle 1704153600 101; candle 1704240000 102].

Definition trade (i : Z) (sd : string) (p : Q) (time : string) : Trade :=
  {| id := i; symbol := "BTC"; market := Some "CRYPTO"; side := sd;
     price := p; quantity := 1; trade_time := time |}.

(** Two buys near the candle of 2 January, then a sell and an order of an
    unknown side. *)
Definition fourTrades : list Trade :=
  [trade 1 "BUY" 10 "2024-01-02T01:00:00Z";
   trade 2 "LONG" 11 "2024-01-02T09:00:00Z";
   trade 3 "SELL" 12 "2024-01-02T10:00:00Z";
   trade 4 "HOLD" 13 "2024-01-03T00:00:00Z"].

(** *** Series alignment *)

Lemma nearestIndex_argmin_first_witness :
  threeDays <> []
  /\ exists kc, threeDays !! PriceChart.nearestIndex threeDays (Some 1704190000000) = Some kc
       /\ forall j k, threeDays !! j = Some k ->
            Z.abs (1704190000000 - PriceChart.klineTime kc)
            <= Z.abs (1704190000000 - PriceChart.klineTime k).
Proof.
  split; [discriminate|].
  destruct (PriceChartFacts.nearestIndex_argmin_first threeDays 1704190000000)
    as [(kc & Hkc & Hle & _) _]; [discriminate|].
  exists kc. split; [exact Hkc|exact Hle].
Defined.

Lemma align_last_write_wins_witness :
  (1 < length (PriceChart.validKlineData None threeDays))%nat
  /\ PriceChart.buyData "BTC" "CRYPTO" None threeDays fourTrades !! 1%nat
     = Some (Some 11%Q)
  /\ PriceChart.sellData "BTC" "CRYPTO" None threeDays fourTrades !! 1%nat
     = Some (Some 12%Q).
Proof.
  assert (Hi : (1 < length (PriceChart.validKlineData None threeDays))%nat)
    by (vm_compute; lia).
  split; [exact Hi|].
  destruct (PriceChartFacts.align_last_write_wins "BTC" "CRYPTO" None
              threeDays fourTrades 1%nat Hi) as (_ & _ & Hb & Hs).
  split; [exact Hb|exact Hs].
Defined.

Lemma replay_window_trades_witness :
  (forall t, t ∈ PriceChart.symbolTrades "BTC" "CRYPTO"
                   (replaying (january 1 (Some 1)))
                   (trade 5 "BUY" 9 "2024-01-09T00:00:00Z" :: fourTrades) ->
     exists tt, Date_getTime (trade_time t) = Some tt
       /\ 1704067200000 <= tt <= 1704672000000)
  /\ PriceChart.symbolTrades "BTC" "CRYPTO" None fourTrades
     = List.filter (PriceChart.symbolMatch "BTC" "CRYPTO") fourTrades
  /\ ({| PriceChart.x := 1; PriceChart.y := 10 |}
        ∈ PriceChart.buyMarkers threeDays
            (PriceChart.symbolTrades "BTC" "CRYPTO" None fourTrades))
  /\ ({| PriceChart.x := 1; PriceChart.y := 12 |}
        ∈ PriceChart.sellMarkers threeDays
            (PriceChart.symbolTrades "BTC" "CRYPTO" None fourTrades)).
Proof.
  pose proof (PriceChartFacts.replay_window_trades "BTC" "CRYPTO"
                (replaying (january 1 (Some 1))) threeDays
                (trade 5 "BUY" 9 "2024-01-09T00:00:00Z" :: fourTrades)) as [Hin _].
  specialize (Hin (january 1 (Some 1)) eq_refl ltac:(discriminate) ltac:(discriminate)).
  destruct Hin as [Hin _].
  destruct (proj2 (PriceChartFacts.replay_window_trades "BTC" "CRYPTO" None
                     threeDays fourTrades) eq_refl) as (Heq & Haligned & _).
  split; [|split; [exact Heq|split]].
  - intros t Ht. apply Hin in Ht as (_ & _ & tt & s & c & Htt & Hs & Hc & Hw).
    exists tt. split; [exact Htt|].
    vm_compute in Hs, Hc. injection Hs as <-. injection Hc as <-. exact Hw.
  - refine (proj1 (Haligned (trade 1 "BUY" 10 "2024-01-02T01:00:00Z") _ eq_refl) eq_refl).
    unfold fourTrades. constructor.
  - refine (proj2 (Haligned (trade 3 "SELL" 12 "2024-01-02T10:00:00Z") _ eq_refl) eq_refl).
    unfold fourTrades. repeat constructor.
Defined.

(** The replay of March 2024, a candle of 20 February and a candle without
    a price. *)
Definition march : ReplayClock :=
  {| start_date := "2024-03-01"; end_date := "2024-03-31";
     current_date := "2024-03-10"; speed_multiplier := 1;
     trading_interval_days := Some 1; progress := None |}.

Definition february20 : KlineData :=
  {| timestamp := Some 1708387200; datetime := Some "2024-02-20"; open := Some 50%Q;
     high := None; low := None; close := Some 51%Q; volume := None |}.

Definition unpriced : KlineData :=
  {| timestamp := Some 1704067200; datetime := None; open := None; high := None;
     low := None; close := None; volume := None |}.

(** C5 fails as stated: outside replay a candle without a price is dropped
    from the series, and during the replay of March a candle of 20 February,
    before the replay start, is kept. *)
Lemma filterWindow_counterexample :
  PriceChart.isReplayActive None = false
  /\ PriceChart.validKlineData None [unpriced; february20] = [february20]
  /\ PriceChart.validKlineData (replaying march) [february20] = [february20]
  /\ PriceChart.klineTimeOf february20 = Some 1708387200000
  /\ Date_getTime (start_date march) = Some 1709251200000
  /\ 1708387200000 < 1709251200000.
Proof. repeat split. Qed.

Lemma validKlineData_replay_window_witness :
  (forall k, k ∈ PriceChart.validKlineData (replaying march) (february20 :: threeDays) ->
     exists t, PriceChart.klineTimeOf k = Some t
       /\ 1709251200000 - 2592000000 <= t <= 1710028800000)
  /\ PriceChart.validKlineData None [unpriced; february20]
     = List.filter PriceChart.isValidPrice [unpriced; february20].
Proof.
  pose proof (PriceChartFacts.validKlineData_replay_window (replaying march)
                (february20 :: threeDays)) as [Hin _].
  specialize (Hin march eq_refl ltac:(discriminate) ltac:(discriminate)).
  split.
  - intros k Hk. apply Hin in Hk as (_ & _ & t & s & c & Ht & Hs & Hc & Hw).
    exists t. split; [exact Ht|].
    vm_compute in Hs, Hc. injection Hs as <-. injection Hc as <-. exact Hw.
  - apply (PriceChartFacts.validKlineData_replay_window None [unpriced; february20]).
    reflexivity.
Defined.

(** *** The replay clock controller *)

Import ComprehensiveView.

Definition idle : ViewState :=
  {| replayState := None; startDate := "2024-01-01"; endDate := "2024-01-31";
     speedMultiplier := 1; tradingIntervalDays := 1; loading := false;
     showReplayControls := true |}.

(** C1 fails as stated: with a weekly interval at speed 2 the timer's period
    is 7000 ms, not the 302400 seconds of the simulated interval over the
    speed; and a render that brings only another trading interval (daily to
    weekly, same speed) leaves the daily timer running. *)
Lemma autoAdvance_period_counterexample :
  (exists iv, autoAdvance (replaying (january 2 (Some 7))) = Some iv
     /\ (speedMs iv == 7000)%Q
     /\ ~ (speedMs iv == 302400 * 1000)%Q
     /\ tradingIntervalSeconds iv = 604800)
  /\ commit (replaying (january 2 (Some 7)))
            (commit (replaying (january 2 (Some 1))) unmounted)
     = commit (replaying (january 2 (Some 1))) unmounted
  /\ exists iv, intervals (commit (replaying (january 2 (Some 7)))
                             (commit (replaying (january 2 (Some 1))) unmounted))
                = [(1%nat, iv)]
       /\ (speedMs iv == 1000)%Q
       /\ tradingIntervalSeconds iv = 86400.
Proof.
  split; [|split; [reflexivity|]].
  - eexists. split; [reflexivity|]. split; [reflexivity|]. split; [|reflexivity].
    intros Heq. vm_compute in Heq. discriminate Heq.
  - eexists. split; [reflexivity|]. split; reflexivity.
Qed.

(** The earlier revision of the view did use the simulated interval over
    the speed, in milliseconds. *)
Lemma legacy_autoAdvance_period :
  exists iv, LegacyView.autoAdvance (replaying (january 2 (Some 7))) = Some iv
    /\ (speedMs iv == 302400 * 1000)%Q.
Proof. eexists. split; reflexivity. Qed.

Lemma autoAdvance_timer_witness :
  (0 < 2)%Q /\ (0 < 1)%Q /\ ~ (2 == 1)%Q
  /\ exists iv',
       intervals (commit (replaying (january 1 (Some 7)))
                    (commit (replaying (january 2 (Some 7))) unmounted))
       = [(2%nat, iv')]
       /\ (speedMs iv' == 14000)%Q.
Proof.
  assert (H2 : (0 < 2)%Q) by reflexivity.
  assert (H1 : (0 < 1)%Q) by reflexivity.
  assert (Hne : ~ (2 == 1)%Q) by (intros Heq; vm_compute in Heq; discriminate Heq).
  split; [exact H2|]. split; [exact H1|]. split; [exact Hne|].
  destruct (ComprehensiveViewFacts.autoAdvance_timer
              (january 2 (Some 7)) (january 1 (Some 7)) H2 H1 Hne)
    as (iv & iv' & _ & _ & _ & _ & _ & _ & _ & Hp & Hre & _).
  exists iv'. split; [exact Hre|].
  rewrite <- (Qmult_1_r (speedMs iv')). exact Hp.
Defined.

Lemma poll_never_overlaps_witness :
  inFlightRef (run (mount idle) [RunFetch; RunFetch; TimeoutFires 1]) = true
  /\ outstanding (run (mount idle) [RunFetch; RunFetch; TimeoutFires 1]) = 1%nat
  /\ runFetch (run (mount idle) [RunFetch; RunFetch; TimeoutFires 1])
     = run (mount idle) [RunFetch; RunFetch; TimeoutFires 1].
Proof.
  assert (Hf : inFlightRef (run (mount idle) [RunFetch; RunFetch; TimeoutFires 1]) = true)
    by reflexivity.
  split; [exact Hf|].
  destruct (ComprehensiveViewFacts.poll_never_overlaps idle
              [RunFetch; RunFetch; TimeoutFires 1]) as [_ Hskip].
  destruct (Hskip Hf) as (Ho & Hr & _). split; [exact Ho|exact Hr].
Defined.

Definition backwards : ViewState :=
  {| replayState := None; startDate := "2024-02-01"; endDate := "2024-01-01";
     speedMultiplier := 1; tradingIntervalDays := 1; loading := false;
     showReplayControls := true |}.

Definition noEndDate : ReplayModeDialog.DialogState :=
  {| ReplayModeDialog.replayState := None;
     ReplayModeDialog.startDate := "2024-02-01";
     ReplayModeDialog.endDate := "";
     ReplayModeDialog.speedMultiplier := 1;
     ReplayModeDialog.loading := false |}.

Lemma handleStart_rejects_bad_window_witness :
  ComprehensiveViewFacts.badWindow (startDate backwards) (endDate backwards)
  /\ ComprehensiveViewFacts.badWindow (ReplayModeDialog.startDate noEndDate)
                                      (ReplayModeDialog.endDate noEndDate)
  /\ (exists msg, handleStart (StartReplied true None) backwards
                   = (backwards, [toastError msg]))
  /\ existsb isNetworkCall (snd (handleStart (StartReplied true None) backwards)) = false
  /\ (exists msg, ReplayModeDialog.handleStart None (Rejected None) noEndDate
                   = (noEndDate, [toastError msg])).
Proof.
  assert (Hv : ComprehensiveViewFacts.badWindow (startDate backwards) (endDate backwards)).
  { right. right. exists 1706745600000, 1704067200000.
    split; [reflexivity|]. split; [reflexivity|]. discriminate. }
  assert (Hd : ComprehensiveViewFacts.badWindow (ReplayModeDialog.startDate noEndDate)
                 (ReplayModeDialog.endDate noEndDate)).
  { right. left. reflexivity. }
  split; [exact Hv|]. split; [exact Hd|].
  destruct (ComprehensiveViewFacts.handleStart_rejects_bad_window backwards noEndDate
              (StartReplied true None) None (Rejected None) Hv Hd)
    as (H1 & Hn & H2 & _).
  split; [exact H1|]. split; [exact Hn|exact H2].
Defined.

(** *** The push channel *)

Import App.

Definition known : Snapshot :=
  {| user := Some {| username := "default" |};
     account := Some {| name := "Paper" |};
     overview := Some (JString "overview-1");
     positions := Some [JString "position-1"];
     orders := Some [];
     trades := [JString "trade-1"; JString "trade-2"];
     aiDecisions := [JString "decision-1"];
     allAssetCurves := [JString "curve-1"];
     wsError := None |}.

(** A fast snapshot that carries the overview and the positions only. *)
Definition partial : Msg.t :=
  {| Msg.type := "snapshot_fast"; Msg.user := None; Msg.account := None;
     Msg.overview := Some (JString "overview-2");
     Msg.positions := Some [JString "position-2"];
     Msg.orders := None; Msg.trades := None; Msg.ai_decisions := None;
     Msg.all_asset_curves := None; Msg.message := None |}.

(** C8 fails as stated: a snapshot that omits the trades, the AI decisions
    and the orders clears them; only the equity curves are retained. *)
Lemma partial_snapshot_counterexample :
  Msg.trades partial = None
  /\ trades known = [JString "trade-1"; JString "trade-2"]
  /\ trades (fst (handleMessage partial known)) = []
  /\ aiDecisions (fst (handleMessage partial known)) = []
  /\ orders known = Some []
  /\ orders (fst (handleMessage partial known)) = None
  /\ allAssetCurves (fst (handleMessage partial known)) = allAssetCurves known.
Proof. repeat split. Qed.

Lemma snapshot_replaces_slices_witness :
  isSnapshotType (Msg.type partial) = true
  /\ overview (fst (handleMessage partial known)) = Some (JString "overview-2")
  /\ allAssetCurves (fst (handleMessage partial known)) = [JString "curve-1"].
Proof.
  assert (Hty : isSnapshotType (Msg.type partial) = true) by reflexivity.
  split; [exact Hty|].
  destruct (AppFacts.snapshot_replaces_slices partial known Hty)
    as (Ho & _ & _ & _ & _ & Hc & _).
  split; [exact Ho|exact Hc].
Defined.

Definition connected : Link :=
  {| WS_SINGLETON := Some 1%nat; wsRef := Some 1%nat; ws := Some 1%nat;
     reconnectTimer := None; timers := []; nextTimer := 1; nextSocket := 2;
     wsConnected := true |}.

Lemma handleClose_reconnect_witness :
  timers (handleClose 1006 connected) = [(1%nat, 3000)]
  /\ timers (handleClose 1000 connected) = []
  /\ WS_SINGLETON (fire 1 false (handleClose 1006 connected)) = Some 2%nat.
Proof.
  destruct (AppFacts.handleClose_reconnect 1006 connected)
    as (_ & _ & H6 & _ & H0 & _ & Hs & _).
  split; [exact H6|]. split; [exact H0|exact Hs].
Defined.

End Examples.

(** * Further properties of the modelled code *)

(** ** The chart *)

Module ChartProperties.
Import JS PriceChart PriceChartFacts.

(** The number of candles asked from the API is between 31 and 500, and for
    every intraday timeframe it is 500 whatever the history range: the range
    only matters for daily candles. *)
Theorem getDataCount_bounds (timeframe : ChartControls.Timeframe)
    (historyRange : ChartControls.HistoryRange) :
  31 <= ChartControls.getDataCount timeframe historyRange <= 500
  /\ (timeframe <> ChartControls.tf_1d ->
      ChartControls.getDataCount timeframe historyRange = 500).
Proof.
  destruct timeframe, historyRange; cbn; split; try lia; try reflexivity;
    intros Hne; congruence.
Qed.

(** *** The nearest index is always a candle of the series *)

Lemma scan_closest_bound tradeTime valid :
  closestIndex (scan tradeTime valid) = 0%nat
  \/ (closestIndex (scan tradeTime valid) < length valid)%nat.
Proof.
  induction valid as [|k pre IH] using rev_ind; [now left|].
  rewrite scan_snoc, length_app. unfold scanStep.
  destruct (lt_min _ _); cbn [closestIndex length].
  - right. rewrite scan_idx. lia.
  - destruct IH as [IH|IH]; [now left|right; lia].
Qed.

Lemma nearestIndex_lt valid tradeTime :
  valid <> [] -> (nearestIndex valid tradeTime < length valid)%nat.
Proof.
  intros Hne. unfold nearestIndex.
  destruct (scan_closest_bound tradeTime valid) as [-> | Hlt]; [|exact Hlt].
  destruct valid; [congruence|cbn; lia].
Qed.

Lemma scan_NaN valid : closestIndex (scan None valid) = 0%nat.
Proof.
  induction valid as [|k pre IH] using rev_ind; [reflexivity|].
  rewrite scan_snoc. unfold scanStep. cbn. exact IH.
Qed.

(** Whatever the trade's time, an Invalid Date included, the index found
    is an index of the (non-empty) series; a trade whose time does not parse
    is sent to the first candle. *)
Theorem nearestIndex_in_range (valid : list KlineData) (tradeTime : option Z) :
  valid <> [] ->
  (nearestIndex valid tradeTime < length valid)%nat
  /\ nearestIndex valid None = 0%nat.
Proof.
  intros Hne. split; [now apply nearestIndex_lt|apply scan_NaN].
Qed.

(** *** The three datasets of the chart *)

Lemma validKlineData_priced `{DateParser} rs klineData k :
  k ∈ validKlineData rs klineData -> isValidPrice k = true.
Proof.
  unfold validKlineData. rewrite elem_of_filter_bool. intros [_ Hk].
  unfold keepKline in Hk. now destruct (isValidPrice k).
Qed.

Lemma prices_positive `{DateParser} rs klineData p :
  p ∈ prices (validKlineData rs klineData) -> (0 < p)%Q.
Proof.
  unfold prices. intros Hp. apply list_elem_of_fmap in Hp as (k & -> & Hk).
  apply validKlineData_priced in Hk. unfold isValidPrice in Hk.
  destruct (candlePrice k) as [q|]; [|discriminate].
  unfold Qpositive in Hk. apply negb_true_iff in Hk.
  destruct (Qlt_le_dec 0 q) as [Hlt|Hle]; [exact Hlt|].
  apply Qle_bool_iff in Hle. congruence.
Qed.

(** When the component draws a chart, the price line and the two marker
    lines have the same, non-zero number of points (one per valid candle),
    and every plotted price is positive. *)
Theorem render_datasets_aligned `{DateParser} (sym mkt : string)
    (rs : option ReplayState) (loading : bool) (error : option string)
    (klineData : list KlineData) (trades : list Trade) (c : ChartData) :
  render sym mkt rs loading error klineData trades = Some c ->
  length (priceLine c) = length (validKlineData rs klineData)
  /\ length (buyLine c) = length (priceLine c)
  /\ length (sellLine c) = length (priceLine c)
  /\ (0 < length (priceLine c))%nat
  /\ (forall p, p ∈ priceLine c -> (0 < p)%Q)
  /\ klineData <> [] /\ (forall e, error = Some e -> e = "").
Proof.
  intros Hr. pose proof (render_series_nonempty _ _ _ _ _ _ _ _ Hr) as Hne.
  unfold render in Hr.
  destruct (loading && isEmpty klineData); [discriminate|].
  destruct (truthy_opt error || isEmpty klineData) eqn:Hg; [discriminate|].
  destruct (isEmpty (validKlineData rs klineData)); [discriminate|].
  injection Hr as <-. cbn [priceLine buyLine sellLine].
  apply orb_false_iff in Hg as [Herr Hk].
  unfold buyData, sellData. rewrite !channel_length.
  split; [unfold prices; now rewrite length_map|].
  split; [reflexivity|]. split; [reflexivity|].
  split.
  { unfold prices. rewrite length_map.
    destruct (validKlineData rs klineData); [congruence|cbn; lia]. }
  split; [intros p; apply prices_positive|].
  split; [now destruct klineData|].
  intros e ->. cbn in Herr. unfold truthy in Herr.
  apply negb_false_iff, String.eqb_eq in Herr. exact Herr.
Qed.

(** *** No marker is lost *)

Lemma last_None_nil {A} (l : list A) : last l = None -> l = [].
Proof.
  induction l as [|a l IH] using rev_ind; [reflexivity|].
  rewrite last_snoc. discriminate.
Qed.

Lemma filter_nonempty {A} (f : A -> bool) (l : list A) (a : A) :
  a ∈ l -> f a = true -> List.filter f l <> [].
Proof.
  intros Ha Hf Hnil.
  assert (Hin : a ∈ List.filter f l) by (apply elem_of_filter_bool; now split).
  rewrite Hnil in Hin. now apply not_elem_of_nil in Hin.
Qed.

(** Every BUY or LONG trade kept for the chart shows in the buy line, and
    every SELL or SHORT trade in the sell line: the slot of its nearest
    candle holds a price (its own, or that of a later trade of the channel
    at that candle). *)
Theorem every_trade_is_drawn `{DateParser} (sym mkt : string)
    (rs : option ReplayState) (klineData : list KlineData) (trades : list Trade)
    (t : Trade) :
  validKlineData rs klineData <> [] ->
  t ∈ symbolTrades sym mkt rs trades ->
  (isBuySide t = true ->
     exists p, buyData sym mkt rs klineData trades
                 !! nearestIndex (validKlineData rs klineData)
                      (Date_getTime (trade_time t))
               = Some (Some p))
  /\ (isSellSide t = true ->
     exists p, sellData sym mkt rs klineData trades
                 !! nearestIndex (validKlineData rs klineData)
                      (Date_getTime (trade_time t))
               = Some (Some p)).
Proof.
  intros Hne Ht.
  set (valid := validKlineData rs klineData) in *.
  set (i := nearestIndex valid (Date_getTime (trade_time t))).
  assert (Hi : (i < length valid)%nat) by now apply nearestIndex_lt.
  assert (Hslot : forall (pick : Trade -> bool), pick t = true ->
    exists p, (y <$> last (List.filter (fun m => (x m =? i)%nat)
                 (map (markerOf valid)
                    (List.filter pick (symbolTrades sym mkt rs trades))))) = Some p).
  { intros pick Hpick.
    destruct (last _) as [m|] eqn:Hlast; [now exists (y m)|].
    apply last_None_nil in Hlast. exfalso.
    eapply (filter_nonempty _ _ (markerOf valid t)); [| |exact Hlast].
    - apply list_elem_of_fmap. exists t. split; [reflexivity|].
      apply elem_of_filter_bool. now split.
    - cbn. apply Nat.eqb_refl. }
  unfold buyData, sellData, buyMarkers, sellMarkers.
  rewrite markers_filter. cbn [fst snd]. unfold prices. rewrite length_map.
  fold valid. split.
  - intros Hb. destruct (Hslot isBuySide Hb) as [p Hp].
    exists p. rewrite channel_lookup by exact Hi. fold i. now rewrite Hp.
  - intros Hs. destruct (Hslot isSellSide Hs) as [p Hp].
    exists p. rewrite channel_lookup by exact Hi. fold i. now rewrite Hp.
Qed.

(** *** The channels are independent *)

Lemma filter_comm_bool {A} (p q : A -> bool) (l : list A) :
  List.filter p (List.filter q l) = List.filter q (List.filter p l).
Proof.
  rewrite !filter_filter_and. apply List.filter_ext. intros a. apply andb_comm.
Qed.

Lemma filter_idem {A} (p : A -> bool) (l : list A) :
  List.filter p (List.filter p l) = List.filter p l.
Proof.
  rewrite filter_filter_and. apply List.filter_ext. intros a. now destruct (p a).
Qed.

(** The buy line is the same when every trade that is not a BUY or a LONG is
    taken away, and the sell line when every trade that is not a SELL or a
    SHORT is: sells never move a buy marker, trades of an unknown side move
    none. *)
Theorem channels_independent `{DateParser} (sym mkt : string)
    (rs : option ReplayState) (klineData : list KlineData) (trades : list Trade) :
  buyData sym mkt rs klineData (List.filter isBuySide trades)
    = buyData sym mkt rs klineData trades
  /\ sellData sym mkt rs klineData (List.filter isSellSide trades)
    = sellData sym mkt rs klineData trades.
Proof.
  unfold buyData, sellData, buyMarkers, sellMarkers, symbolTrades.
  rewrite !markers_filter. cbn [fst snd].
  split; f_equal; f_equal.
  - rewrite (filter_comm_bool isBuySide _ (List.filter isBuySide trades)), filter_idem.
    symmetry. apply filter_comm_bool.
  - rewrite (filter_comm_bool isSellSide _ (List.filter isSellSide trades)), filter_idem.
    symmetry. apply filter_comm_bool.
Qed.

(** *** Trades outside the fetched history *)

Lemma scan_result T valid :
  valid <> [] ->
  exists kc, valid !! nearestIndex valid (Some T) = Some kc
    /\ (forall j k, valid !! j = Some k -> dist T kc <= dist T k)
    /\ (forall j k, (j < nearestIndex valid (Some T))%nat ->
          valid !! j = Some k -> dist T kc < dist T k).
Proof.
  intros Hne. destruct (scan_Nearest T valid Hne) as (_ & kc & Hkc & _ & Hle & Hlt).
  exists kc. unfold nearestIndex. repeat split; assumption.
Qed.

(** A trade older than every candle of the series is drawn on the first
    candle, and a trade newer than every candle on the last one (for a series
    whose first candle is its earliest and whose last candle is strictly its
    latest, as an ascending series is): trades from outside the fetched
    range pile up on the two edges of the chart. *)
Theorem trades_outside_range_go_to_the_edges (first last : KlineData)
    (middle : list KlineData) (T : Z) :
  (forall k, k ∈ middle ++ [last] -> klineTime first <= klineTime k) ->
  (forall k, k ∈ first :: middle -> klineTime k < klineTime last) ->
  (T <= klineTime first ->
     nearestIndex (first :: middle ++ [last]) (Some T) = 0%nat)
  /\ (klineTime last <= T ->
     nearestIndex (first :: middle ++ [last]) (Some T) = S (length middle)).
Proof.
  intros Hfirst Hlast.
  destruct (scan_result T (first :: middle ++ [last])) as (kc & Hkc & Hle & Hlt);
    [discriminate|].
  set (i := nearestIndex (first :: middle ++ [last]) (Some T)) in *.
  assert (Hin : kc ∈ first :: middle ++ [last])
    by (apply list_elem_of_lookup; eauto).
  split.
  - intros HT. destruct i as [|i']; [reflexivity|]. exfalso.
    specialize (Hlt 0%nat first ltac:(lia) eq_refl).
    apply elem_of_cons in Hin as [->|Hin]; [lia|].
    specialize (Hfirst kc Hin). unfold dist in Hlt. lia.
  - intros HT.
    assert (Hll : (first :: middle ++ [last]) !! S (length middle) = Some last).
    { change ((middle ++ [last]) !! length middle = Some last).
      rewrite lookup_app_r by lia. now rewrite Nat.sub_diag. }
    specialize (Hle _ _ Hll).
    assert (Hi : (i < length (first :: middle ++ [last]))%nat)
      by (eapply lookup_lt_Some; exact Hkc).
    cbn in Hi. rewrite length_app in Hi. cbn in Hi.
    destruct (decide (i = S (length middle))) as [E|E]; [exact E|]. exfalso.
    assert (Hk : kc ∈ first :: middle).
    { apply list_elem_of_lookup. exists i.
      change (first :: middle ++ [last]) with ((first :: middle) ++ [last]) in Hkc.
      rewrite lookup_app_l in Hkc by (cbn; lia). exact Hkc. }
    specialize (Hlast kc Hk). unfold dist in Hle. lia.
Qed.

(** *** The replay only ever adds to the chart *)

Lemma filter_sublist {A} (p q : A -> bool) (l : list A) :
  (forall a, p a = true -> q a = true) ->
  sublist (List.filter p l) (List.filter q l).
Proof.
  intros Hpq. induction l as [|a l IH]; [constructor|]. cbn.
  destruct (p a) eqn:Hp.
  - rewrite (Hpq a Hp). now constructor.
  - destruct (q a); [now constructor|exact IH].
Qed.

(** While a replay runs from the same start date, moving its current date
    forward never takes a candle or a trade off the chart: what was kept at
    the earlier date is kept, in the same order, at the later one. *)
Theorem replay_advance_only_adds `{DateParser} (sym mkt : string)
    (clock clock' : ReplayClock) (c c' : Z)
    (klineData : list KlineData) (trades : list Trade) :
  start_date clock' = start_date clock ->
  start_date clock <> "" -> current_date clock <> "" -> current_date clock' <> "" ->
  Date_getTime (current_date clock) = Some c ->
  Date_getTime (current_date clock') = Some c' ->
  c <= c' ->
  sublist (validKlineData (Some {| active := true; state := Some clock |}) klineData)
          (validKlineData (Some {| active := true; state := Some clock' |}) klineData)
  /\ sublist (symbolTrades sym mkt (Some {| active := true; state := Some clock |}) trades)
             (symbolTrades sym mkt (Some {| active := true; state := Some clock' |}) trades).
Proof.
  intros Hstart Hs Hc Hc' Hgc Hgc' Hle.
  assert (Hs' : start_date clock' <> "") by now rewrite Hstart.
  split.
  - apply filter_sublist. intros k Hk.
    apply (keepKline_window clock k Hs Hc) in Hk as (Hv & t & s0 & c0 & Ht & Hs0 & Hc0 & Hw).
    apply (keepKline_window clock' k Hs' Hc'). split; [exact Hv|].
    exists t, s0, c'. rewrite Hstart. rewrite Hgc in Hc0. injection Hc0 as <-.
    repeat split; try assumption; lia.
  - apply filter_sublist. intros t Ht.
    apply (keepTrade_window sym mkt clock t Hs Hc) in Ht
      as (Hm & tt & s0 & c0 & Htt & Hs0 & Hc0 & Hw).
    apply (keepTrade_window sym mkt clock' t Hs' Hc'). split; [exact Hm|].
    exists tt, s0, c'. rewrite Hstart. rewrite Hgc in Hc0. injection Hc0 as <-.
    repeat split; try assumption; lia.
Qed.

(** *** Outside replay the chart is the one of the earlier component *)

(** While replay is not active, and when every trade names its market (or
    the chart is not the CRYPTO one), the replay-aware component keeps the
    same candles and trades and draws the same marker lines as the component
    did before replay was added. *)
Theorem inactive_chart_is_original `{DateParser} (sym mkt : string)
    (rs : option ReplayState) (klineData : list KlineData) (trades : list Trade) :
  isReplayActive rs = false ->
  (mkt = "CRYPTO" -> forall t, t ∈ trades -> truthy_opt (market t) = true) ->
  validKlineData rs klineData = OriginalPriceChart.validKlineData klineData
  /\ symbolTrades sym mkt rs trades = OriginalPriceChart.symbolTrades sym mkt trades
  /\ buyData sym mkt rs klineData trades
     = OriginalPriceChart.buyData sym mkt klineData trades
  /\ sellData sym mkt rs klineData trades
     = OriginalPriceChart.sellData sym mkt klineData trades.
Proof.
  intros Ha Hm.
  assert (Hk : validKlineData rs klineData = OriginalPriceChart.validKlineData klineData).
  { unfold validKlineData, OriginalPriceChart.validKlineData.
    apply List.filter_ext. intros k. now apply keepKline_inactive. }
  assert (Ht : symbolTrades sym mkt rs trades = OriginalPriceChart.symbolTrades sym mkt trades).
  { unfold symbolTrades, OriginalPriceChart.symbolTrades.
    apply List.filter_ext_in. intros t Hin.
    rewrite (keepTrade_inactive sym mkt rs t Ha). unfold symbolMatch.
    f_equal. destruct (String.eqb_spec mkt "CRYPTO") as [E|E].
    - apply list_elem_of_In in Hin. rewrite (Hm E t Hin). cbn. apply orb_false_r.
    - rewrite andb_false_r. apply orb_false_r. }
  split; [exact Hk|]. split; [exact Ht|].
  unfold buyData, sellData, OriginalPriceChart.buyData, OriginalPriceChart.sellData.
  now rewrite Hk, Ht.
Qed.

End ChartProperties.

(** ** The replay clock controller *)

Module ControllerProperties.
Import JS ComprehensiveView ComprehensiveViewFacts.

(** *** The poll loop neither stalls nor doubles *)

(** The three shapes of a mounted poller: a request on the wire and no
    timer; no request and the one timer [pollTimeoutRef] holds; or cancelled,
    with no timer left. *)
Definition Healthy (p : Poller) : Prop :=
  (cancelled p = false /\ inFlightRef p = true /\ outstanding p = 1%nat
   /\ timeouts p = [])
  \/ (cancelled p = false /\ inFlightRef p = false /\ outstanding p = 0%nat
      /\ exists h d, timeouts p = [(h, d)] /\ pollTimeoutRef p = Some h
           /\ (d = 10000 \/ d = 30000))
  \/ (cancelled p = true /\ timeouts p = [] /\ (outstanding p <= 1)%nat).

Lemma step_Healthy p e : e <> RunFetch -> Healthy p -> Healthy (step p e).
Proof.
  intros He Hp. destruct p as [v c f ref ts nh o rf].
  destruct Hp as [(Hc & Hf & Ho & Ht)|[(Hc & Hf & Ho & h & d & Ht & Href & Hd)|(Hc & Ht & Ho)]];
    cbn in *; subst.
  - destruct e as [|h'|r|]; [congruence| | |].
    + left. cbn. repeat split.
    + right. left. destruct r; cbn; repeat split; eauto 8.
    + right. right. destruct ref; cbn; repeat split; lia.
  - destruct e as [|h'|r|]; [congruence| | |].
    + cbn. destruct (h =? h')%nat eqn:Hh; cbn.
      * left. repeat split.
      * right. left. repeat split. eauto 8.
    + cbn. right. left. repeat split. eauto 8.
    + right. right. cbn. rewrite Nat.eqb_refl. cbn. repeat split. lia.
  - right. right. destruct e as [|h'|r|]; [congruence| | |]; cbn.
    + repeat split. exact Ho.
    + destruct o as [|o']; cbn; repeat split; lia.
    + destruct ref; cbn; repeat split; exact Ho.
Qed.

Lemma run_Healthy es : forall p,
  RunFetch ∉ es -> Healthy p -> Healthy (run p es).
Proof.
  induction es as [|e es IH]; intros p Hno Hp; [exact Hp|].
  apply not_elem_of_cons in Hno as [He Hno].
  cbn. apply IH; [exact Hno|]. apply step_Healthy; [congruence|exact Hp].
Qed.

(** After the effect has mounted and sent its first poll, and as long as
    [runFetch] is only called by the timers the poll arms itself, the poll
    is always in one of two states until the cleanup: a request is on the
    wire and no timer is pending, or no request is out and exactly one timer
    is pending, the one [pollTimeoutRef] holds, 10 or 30 seconds long.  So
    the loop never stalls and never runs twice; once cancelled, no timer is
    left. *)
Theorem poll_loop_alive (v : ViewState) (es : list Event) :
  RunFetch ∉ es ->
  (cancelled (run (mount v) (RunFetch :: es)) = false ->
     (inFlightRef (run (mount v) (RunFetch :: es)) = true
      /\ outstanding (run (mount v) (RunFetch :: es)) = 1%nat
      /\ timeouts (run (mount v) (RunFetch :: es)) = [])
     \/ (inFlightRef (run (mount v) (RunFetch :: es)) = false
         /\ outstanding (run (mount v) (RunFetch :: es)) = 0%nat
         /\ exists h d,
              timeouts (run (mount v) (RunFetch :: es)) = [(h, d)]
              /\ pollTimeoutRef (run (mount v) (RunFetch :: es)) = Some h
              /\ (d = 10000 \/ d = 30000)))
  /\ (cancelled (run (mount v) (RunFetch :: es)) = true ->
      timeouts (run (mount v) (RunFetch :: es)) = []).
Proof.
  intros Hno.
  assert (Hh : Healthy (run (mount v) (RunFetch :: es))).
  { cbn. apply run_Healthy; [exact Hno|]. left. cbn. repeat split. }
  destruct Hh as [(Hc & Hrest)|[(Hc & Hrest)|(Hc & Ht & _)]].
  - split; [intros _; now left|congruence].
  - split; [intros _; now right|congruence].
  - split; [congruence|intros _; exact Ht].
Qed.

(** *** Nothing happens after the cleanup *)

Lemma step_cancelled p e :
  cancelled p = true ->
  cancelled (step p e) = true
  /\ view (step p e) = view p
  /\ refreshes (step p e) = refreshes p
  /\ nextHandle (step p e) = nextHandle p
  /\ (outstanding (step p e) <= outstanding p)%nat
  /\ (length (timeouts (step p e)) <= length (timeouts p))%nat.
Proof.
  intros Hc. destruct p as [v c f ref ts nh o rf]. cbn in Hc. subst c.
  destruct e as [|h|r|]; cbn [step].
  - cbn. repeat split; lia.
  - cbn. destruct (existsb _ ts); cbn; repeat split; try lia.
    apply List.filter_length_le.
  - destruct o as [|o']; cbn; repeat split; lia.
  - cbn. repeat split; try lia. destruct ref; [|lia].
    apply List.filter_length_le.
Qed.

(** Once the cleanup has run, whatever comes later (a reply to the request
    that was in flight, a timer, another call of [runFetch]) changes no cell
    of the component, calls no refresh, sends no request and arms no timer. *)
Theorem cleanup_is_final (p : Poller) (es : list Event) :
  cancelled (run (cleanup p) es) = true
  /\ view (run (cleanup p) es) = view p
  /\ refreshes (run (cleanup p) es) = refreshes p
  /\ nextHandle (run (cleanup p) es) = nextHandle p
  /\ (outstanding (run (cleanup p) es) <= outstanding p)%nat
  /\ (length (timeouts (run (cleanup p) es)) <= length (timeouts p))%nat.
Proof.
  assert (Hgen : forall es q, cancelled q = true ->
    cancelled (run q es) = true /\ view (run q es) = view q
    /\ refreshes (run q es) = refreshes q /\ nextHandle (run q es) = nextHandle q
    /\ (outstanding (run q es) <= outstanding q)%nat
    /\ (length (timeouts (run q es)) <= length (timeouts q))%nat).
  { clear. induction es as [|e es IH]; intros q Hq; [repeat split; auto|].
    destruct (step_cancelled q e Hq) as (Hc & Hv & Hr & Hn & Ho & Ht).
    destruct (IH (step q e) Hc) as (Hc' & Hv' & Hr' & Hn' & Ho' & Ht').
    change (run q (e :: es)) with (run (step q e) es).
    repeat split; try congruence; lia. }
  destruct (Hgen es (cleanup p) eq_refl) as (Hc & Hv & Hr & Hn & Ho & Ht).
  repeat split; try assumption.
  cbn in Ht. destruct (pollTimeoutRef p); [|exact Ht].
  etransitivity; [exact Ht|]. unfold clearTimeout. apply List.filter_length_le.
Qed.

(** *** What the polls leave in the component *)

(** The poller driven through successive replies, each followed by the
    timer it armed. *)
Fixpoint rounds (rs : list Reply) (p : Poller) : Poller :=
  match rs with
  | [] => p
  | r :: rs' =>
      let p1 := step p (FetchSettles r) in
      match pollTimeoutRef p1 with
      | Some h => rounds rs' (step p1 (TimeoutFires h))
      | None => p1
      end
  end.

(** The replay state the replies leave: that of the last success. *)
Definition lastKnown (rs : list Reply) (init : option ReplayState) : option ReplayState :=
  fold_left (fun acc r => match r with Fulfilled st => Some st | Rejected _ => acc end)
            rs init.

Definition reportsActive (r : Reply) : bool :=
  match r with Fulfilled st => active st | Rejected _ => false end.

Lemma rounds_Polling rs : forall p,
  Polling p ->
  replayState (view (rounds rs p)) = lastKnown rs (replayState (view p))
  /\ refreshes (rounds rs p) = (refreshes p + length (List.filter reportsActive rs))%nat
  /\ startDate (view (rounds rs p)) = startDate (view p)
  /\ endDate (view (rounds rs p)) = endDate (view p)
  /\ loading (view (rounds rs p)) = loading (view p)
  /\ showReplayControls (view (rounds rs p)) = showReplayControls (view p).
Proof.
  induction rs as [|r rs IH]; intros p Hp; [cbn; repeat split; lia|].
  destruct (Polling_round r p Hp) as (Href & _ & _ & _ & Hnext).
  cbn [rounds]. rewrite Href.
  destruct (IH _ Hnext) as (Hs & Hr & H1 & H2 & H3 & H4).
  rewrite Hs, Hr, H1, H2, H3, H4. clear IH Hs Hr H1 H2 H3 H4 Href Hnext.
  destruct Hp as (Hc & Hf & Ho & Ht). destruct p as [v c f ref ts nh o rf].
  cbn in Hc, Hf, Ho, Ht. subst c f o ts.
  destruct r as [st|m]; cbn; rewrite Nat.eqb_refl; cbn.
  - destruct (active st); cbn; repeat split; lia.
  - repeat split; lia.
Qed.

(** Through any sequence of poll replies, the component's replay state is
    the state of the last successful poll (a failed poll keeps the last known
    one), the refresh callback has run once per successful poll that
    reported an active replay, and the form's cells are untouched. *)
Theorem polls_keep_last_known_state (v : ViewState) (rs : list Reply) :
  replayState (view (rounds rs (run (mount v) [RunFetch])))
    = lastKnown rs (replayState v)
  /\ refreshes (rounds rs (run (mount v) [RunFetch]))
     = length (List.filter reportsActive rs)
  /\ startDate (view (rounds rs (run (mount v) [RunFetch]))) = startDate v
  /\ endDate (view (rounds rs (run (mount v) [RunFetch]))) = endDate v
  /\ loading (view (rounds rs (run (mount v) [RunFetch]))) = loading v.
Proof.
  assert (Hp : Polling (run (mount v) [RunFetch])) by (cbn; repeat split).
  destruct (rounds_Polling rs _ Hp) as (Hs & Hr & H1 & H2 & H3 & _).
  repeat split; assumption.
Qed.

(** *** Under StrictMode the poll stops after its first request *)

(** When the polling effect is mounted, cleaned up and mounted again while
    its first request is still out (React's StrictMode in development), the
    second run is skipped by the in-flight guard and the reply is dropped by
    the first run's [cancelled]: afterwards the live effect has no request
    out and no timer pending, the component's cells are those before the
    mount, and no timer or reply can ever change that; only another call of
    [runFetch] would poll again. *)
Theorem strict_mode_stops_the_poll (v : ViewState) (r : Reply) (es : list Event) :
  cancelled (StrictModePoll.doubleMount v r) = false
  /\ inFlightRef (StrictModePoll.doubleMount v r) = false
  /\ outstanding (StrictModePoll.doubleMount v r) = 0%nat
  /\ timeouts (StrictModePoll.doubleMount v r) = []
  /\ view (StrictModePoll.doubleMount v r) = v
  /\ refreshes (StrictModePoll.doubleMount v r) = 0%nat
  /\ (Forall (fun e => exists h r', e = TimeoutFires h \/ e = FetchSettles r') es ->
      run (StrictModePoll.doubleMount v r) es = StrictModePoll.doubleMount v r)
  /\ outstanding (runFetch (StrictModePoll.doubleMount v r)) = 1%nat.
Proof.
  assert (Hstate : StrictModePoll.doubleMount v r
    = {| view := v; cancelled := false; inFlightRef := false; pollTimeoutRef := None;
         timeouts := []; nextHandle := 1; outstanding := 0; refreshes := 0 |})
    by (destruct r; reflexivity).
  rewrite Hstate. cbn. repeat split.
  intros Hall. induction Hall as [|e es (h & r' & [-> | ->]) _ IH]; [reflexivity| |];
    exact IH.
Qed.

(** *** One auto-advance timer, and only while replay is active *)

(** The component's renders so far, oldest first. *)
Definition renders (hist : list (option ReplayState)) : AutoAdvance :=
  fold_left (fun a rs => commit rs a) hist unmounted.

(** Dependencies under which the effect arms its timer. *)
Definition arming (d : Deps) : bool :=
  match d with
  | (Some true, Some _) => true
  | _ => false
  end.

(** The timer table holds the armed interval and nothing else, and an
    interval is armed exactly under arming dependencies. *)
Definition Tidy (a : AutoAdvance) : Prop :=
  match armed a with
  | Some h =>
      (exists iv, intervals a = [(h, iv)])
      /\ exists d, lastDeps a = Some d /\ arming d = true
  | None =>
      intervals a = [] /\ forall d, lastDeps a = Some d -> arming d = false
  end.

Lemma arming_autoAdvance rs :
  arming (autoAdvanceDeps rs) = bool_decide (is_Some (autoAdvance rs)).
Proof.
  destruct rs as [[[] [c|]]|]; reflexivity.
Qed.

Lemma sameDeps_arming d d' : sameDeps d d' = true -> arming d = arming d'.
Proof.
  destruct d as [[[]|] [q|]], d' as [[[]|] [q'|]]; cbn; intros Hs;
    try reflexivity; try discriminate.
Qed.

Lemma commit_Tidy rs a : Tidy a -> Tidy (commit rs a).
Proof.
  intros Ha. unfold commit.
  destruct (lastDeps a) as [d|] eqn:Hd.
  - destruct (sameDeps d (autoAdvanceDeps rs)) eqn:Hs; [exact Ha|].
    pose proof (arming_autoAdvance rs) as Harm.
    unfold Tidy in *. destruct (armed a) as [h|].
    + destruct Ha as ([iv Hiv] & _). rewrite Hiv. cbn. rewrite Nat.eqb_refl. cbn.
      destruct (autoAdvance rs) as [iv'|]; cbn.
      * split; [eauto|]. eexists. split; [reflexivity|exact Harm].
      * split; [reflexivity|]. intros d' [= <-]. exact Harm.
    + destruct Ha as (Hiv & _). rewrite Hiv.
      destruct (autoAdvance rs) as [iv'|]; cbn.
      * split; [eauto|]. eexists. split; [reflexivity|exact Harm].
      * split; [reflexivity|]. intros d' [= <-]. exact Harm.
  - pose proof (arming_autoAdvance rs) as Harm.
    unfold Tidy in *. destruct (armed a) as [h|].
    + destruct Ha as (_ & d & Hd' & _). congruence.
    + destruct Ha as (Hiv & _). rewrite Hiv.
      destruct (autoAdvance rs) as [iv'|]; cbn.
      * split; [eauto|]. eexists. split; [reflexivity|exact Harm].
      * split; [reflexivity|]. intros d' [= <-]. exact Harm.
Qed.

Lemma renders_Tidy hist : Tidy (renders hist).
Proof.
  unfold renders. induction hist as [|rs pre IH] using rev_ind.
  - cbn. split; [reflexivity|]. intros d Hd. discriminate Hd.
  - rewrite fold_left_app. cbn. now apply commit_Tidy.
Qed.

Lemma commit_lastDeps rs a :
  exists d, lastDeps (commit rs a) = Some d /\ sameDeps d (autoAdvanceDeps rs) = true.
Proof.
  assert (Hrefl : sameDeps (autoAdvanceDeps rs) (autoAdvanceDeps rs) = true).
  { destruct rs as [[[] [c|]]|]; cbn; try reflexivity; apply Qeq_bool_iff; reflexivity. }
  unfold commit. destruct (lastDeps a) as [d|] eqn:Hd.
  - destruct (sameDeps d (autoAdvanceDeps rs)) eqn:Hs.
    + exists d. now split.
    + destruct (autoAdvance rs); cbn; eauto.
  - destruct (autoAdvance rs); cbn; eauto.
Qed.

(** Whatever replay states the component has rendered with, after a render
    the browser runs at most one auto-advance timer: exactly one, the armed
    one, when the rendered replay state is active and carries a clock, and
    none otherwise.  No timer is leaked and none outlives the replay. *)
Theorem autoAdvance_single_timer (hist : list (option ReplayState))
    (rs : option ReplayState) :
  match autoAdvance rs with
  | Some _ =>
      exists h iv, intervals (commit rs (renders hist)) = [(h, iv)]
                   /\ armed (commit rs (renders hist)) = Some h
  | None =>
      intervals (commit rs (renders hist)) = []
      /\ armed (commit rs (renders hist)) = None
  end.
Proof.
  pose proof (commit_Tidy rs _ (renders_Tidy hist)) as Ht.
  destruct (commit_lastDeps rs (renders hist)) as (d & Hd & Hs).
  apply sameDeps_arming in Hs. rewrite arming_autoAdvance in Hs.
  unfold Tidy in Ht. destruct (armed (commit rs (renders hist))) as [h|].
  - destruct Ht as ([iv Hiv] & d' & Hd' & Harm).
    assert (d' = d) by congruence. subst d'. rewrite Harm in Hs.
    destruct (autoAdvance rs); [eauto|]. discriminate Hs.
  - destruct Ht as (Hiv & Hno). specialize (Hno d Hd). rewrite Hno in Hs.
    destruct (autoAdvance rs); [|now split]. discriminate Hs.
Qed.

(** A render that brings a replay state with the same activity and an
    equal speed (what every poll of a running replay does: only the current
    date and the progress move) leaves the running timer alone, so the
    timer's period is not restarted by the polls. *)
Theorem poll_does_not_restart_timer (a : AutoAdvance) (clock clock' : ReplayClock) :
  lastDeps a = Some (autoAdvanceDeps (Some {| active := true; state := Some clock |})) ->
  (speed_multiplier clock == speed_multiplier clock')%Q ->
  commit (Some {| active := true; state := Some clock' |}) a = a.
Proof.
  intros Hd Heq. unfold commit. rewrite Hd. unfold sameDeps. cbn.
  apply Qeq_bool_iff in Heq. now rewrite Heq.
Qed.

(** *** Starting a replay *)

Lemma or_else_nonempty a b : b <> "" -> or_else a b <> "".
Proof.
  intros Hb. unfold or_else, or_str.
  destruct (truthy_opt a) eqn:Ha; [|exact Hb].
  destruct a as [s|]; [|discriminate]. cbn in Ha. unfold truthy in Ha.
  now apply negb_true_iff, String.eqb_neq in Ha.
Qed.

Lemma goodWindow_guard `{DateParser} (s e : string) :
  ~ badWindow s e ->
  negb (truthy s) || negb (truthy e) = false
  /\ num_ge (Date_getTime s) (Date_getTime e) = false.
Proof.
  intros Hgood. split.
  - apply orb_false_iff. split; apply negb_false_iff, negb_true_iff, String.eqb_neq;
      intros ->; apply Hgood; [now left|now right; left].
  - destruct (Date_getTime s) as [a|] eqn:Ha, (Date_getTime e) as [b|] eqn:Hb;
      try reflexivity.
    cbn. destruct (a >=? b) eqn:Hab; [|reflexivity].
    exfalso. apply Hgood. right. right. exists a, b. repeat split; try assumption. lia.
Qed.

(** Whenever the dates pass the check of [handleStart] (both are given, and
    they are not two dates with the start on or after the end), the view
    sends exactly one request, [startReplay] with the start date at
    00:00:00Z, the end date at 23:59:59Z, the chosen speed and interval; it
    ends with [loading] off and every other cell as it was.  After a
    success it arms the 500 ms fetch of the new state; otherwise it raises
    one error toast, which always carries a text, and arms nothing. *)
Theorem handleStart_sends_one_request `{DateParser} (v : ViewState) (reply : StartResult) :
  ~ badWindow (startDate v) (endDate v) ->
  fst (handleStart reply v) = setLoading false v
  /\ List.filter isNetworkCall (snd (handleStart reply v))
     = [startReplay (Text (startDate v ++ "T00:00:00Z")%string)
                    (Text (endDate v ++ "T23:59:59Z")%string)
                    (speedMultiplier v) (Some (tradingIntervalDays v))]
  /\ match reply with
     | StartReplied true _ =>
         tail (snd (handleStart reply v))
         = [toastSuccess "Replay mode started"; setTimeout 500 FetchStateAfterStart]
     | _ =>
         exists text, text <> ""
           /\ tail (snd (handleStart reply v))
              = [toastError ("Failed to start replay: " ++ text)%string]
     end.
Proof.
  intros Hgood. destruct (goodWindow_guard _ _ Hgood) as [Hg1 Hg2].
  unfold handleStart. rewrite Hg1, Hg2.
  split; [reflexivity|].
  split; [destruct reply as [[] m|m d dm]; reflexivity|].
  destruct reply as [[] m|m d dm]; [reflexivity| |].
  - exists (startErrorMessage (StartReplied false m)). split; [|reflexivity].
    now apply or_else_nonempty.
  - exists (startErrorMessage (StartThrew m d dm)). split; [|reflexivity].
    now apply or_else_nonempty.
Qed.

(** A start or end date that is given but is not a date passes the check:
    the view sends it to the server as it is, while the dialog, which
    converts the dates first, sends nothing and raises one error toast. *)
Theorem unparsable_date_is_not_rejected `{DateParser}
    (v : ViewState) (d : ReplayModeDialog.DialogState)
    (reply : StartResult) (failure : option (option string)) (r : Reply) :
  startDate v <> "" -> endDate v <> "" ->
  Date_getTime (startDate v) = None \/ Date_getTime (endDate v) = None ->
  ReplayModeDialog.startDate d = startDate v ->
  ReplayModeDialog.endDate d = endDate v ->
  head (snd (handleStart reply v))
    = Some (startReplay (Text (startDate v ++ "T00:00:00Z")%string)
                        (Text (endDate v ++ "T23:59:59Z")%string)
                        (speedMultiplier v) (Some (tradingIntervalDays v)))
  /\ existsb isNetworkCall (snd (ReplayModeDialog.handleStart failure r d)) = false
  /\ (exists text, snd (ReplayModeDialog.handleStart failure r d) = [toastError text])
  /\ ReplayModeDialog.replayState (fst (ReplayModeDialog.handleStart failure r d))
     = ReplayModeDialog.replayState d.
Proof.
  intros Hs He Hnan Hds Hde.
  assert (Hgood : ~ badWindow (startDate v) (endDate v)).
  { intros [E|[E|(a & b & Ha & Hb & _)]]; [congruence..|].
    destruct Hnan; congruence. }
  destruct (goodWindow_guard _ _ Hgood) as [Hg1 Hg2].
  unfold handleStart, ReplayModeDialog.handleStart.
  rewrite Hds, Hde, Hg1, Hg2. split; [reflexivity|].
  destruct Hnan as [Hn|Hn]; rewrite Hn.
  - cbn. eauto.
  - destruct (Date_getTime (startDate v)); cbn; eauto.
Qed.

(** *** A failed clock operation changes nothing *)

Definition armsRefresh (e : Effect) : bool :=
  match e with setTimeout _ RefreshData => true | _ => false end.

(** [handleStop], [handleAdvance] and the auto-advance tick change the
    component's replay state only when every request they made succeeded,
    and only then arm the refresh, 500 ms later; after a failure the replay
    state is the one before and no refresh is armed.  [handleStop] always
    ends with [loading] off. *)
Theorem failed_operation_keeps_state (v : ViewState) (seconds : Z)
    (failure : option (option string)) (r : Reply) (iv : Interval) (advanced : bool) :
  (replayState (fst (handleStop failure v))
     = (if bool_decide (failure = None) then None else replayState v)
   /\ existsb armsRefresh (snd (handleStop failure v)) = bool_decide (failure = None)
   /\ loading (fst (handleStop failure v)) = false)
  /\ (replayState (fst (handleAdvance seconds failure r v))
        = match failure, r with
          | None, Fulfilled st => Some st
          | _, _ => replayState v
          end
      /\ existsb armsRefresh (snd (handleAdvance seconds failure r v))
         = match failure, r with None, Fulfilled _ => true | _, _ => false end
      /\ head (snd (handleAdvance seconds failure r v)) = Some (advanceReplay seconds))
  /\ (replayState (fst (tick iv advanced r v))
        = match advanced, r with
          | true, Fulfilled st => Some st
          | _, _ => replayState v
          end
      /\ existsb armsRefresh (snd (tick iv advanced r v))
         = match advanced, r with true, Fulfilled _ => true | _, _ => false end
      /\ existsb (fun e => match e with toastError _ => true | _ => false end)
                 (snd (tick iv advanced r v)) = false).
Proof.
  split; [|split].
  - destruct failure as [m|]; cbn; repeat split.
  - destruct failure as [m|], r as [st|m']; cbn; repeat split.
  - destruct advanced, r as [st|m']; cbn; repeat split.
Qed.

End ControllerProperties.

(** ** The push channel and the application root *)

Module ShellProperties.
Import JS App AppShell.

(** Case analysis on the [type] of a message, in the order of the handler. *)
Ltac by_type ty :=
  destruct (String.eqb_spec ty "bootstrap_ok");
  [|destruct (isSnapshotType ty) eqn:?;
    [|destruct (String.eqb_spec ty "trades");
      [|destruct (String.eqb_spec ty "order_filled");
        [|destruct (String.eqb_spec ty "order_pending");
          [|destruct (String.eqb_spec ty "user_switched");
            [|destruct (String.eqb_spec ty "account_switched");
              [|destruct (String.eqb_spec ty "error")]]]]]]].

(** Each cell has its own few message types: the equity curves change only
    with a snapshot that brings curves; the trades only with a snapshot or a
    [trades] message; overview, positions, orders and AI decisions only with
    a snapshot; the user only with [bootstrap_ok] or [user_switched]; the
    account only with [bootstrap_ok] or [account_switched].  Every other
    message leaves the cell as it was. *)
Theorem message_frame (msg : Msg.t) (s : Snapshot) :
  (allAssetCurves (fst (handleMessage msg s)) = allAssetCurves s
   \/ (isSnapshotType (Msg.type msg) = true
       /\ Msg.all_asset_curves msg = Some (allAssetCurves (fst (handleMessage msg s)))))
  /\ (trades (fst (handleMessage msg s)) = trades s
      \/ isSnapshotType (Msg.type msg) = true \/ Msg.type msg = "trades")
  /\ ((overview (fst (handleMessage msg s)) = overview s
       /\ positions (fst (handleMessage msg s)) = positions s
       /\ orders (fst (handleMessage msg s)) = orders s
       /\ aiDecisions (fst (handleMessage msg s)) = aiDecisions s)
      \/ isSnapshotType (Msg.type msg) = true)
  /\ (user (fst (handleMessage msg s)) = user s
      \/ Msg.type msg = "bootstrap_ok" \/ Msg.type msg = "user_switched")
  /\ (account (fst (handleMessage msg s)) = account s
      \/ Msg.type msg = "bootstrap_ok" \/ Msg.type msg = "account_switched").
Proof.
  unfold handleMessage. destruct msg as [ty u a o ps os ts ds cs m]. cbn [Msg.type
    Msg.user Msg.account Msg.message Msg.trades].
  by_type ty.
  - destruct u, a; cbn; repeat split; auto.
  - cbn. destruct cs; cbn; repeat split; auto.
  - cbn. repeat split; auto.
  - cbn. repeat split; auto.
  - cbn. repeat split; auto.
  - destruct u; cbn; repeat split; auto.
  - destruct a; cbn; repeat split; auto.
  - destruct m as [m|]; [destruct (truthy m && includes "No account found" m)|];
      cbn; repeat split; auto.
  - cbn. repeat split; auto.
Qed.

(** The client asks the server for a snapshot in exactly three cases: a
    [bootstrap_ok] that carries an account, an [order_filled] and an
    [order_pending]; the two order notifications change no cell. *)
Theorem snapshot_requested_when (msg : Msg.t) (s : Snapshot) :
  (In sendGetSnapshot (snd (handleMessage msg s)) <->
     (Msg.type msg = "bootstrap_ok" /\ is_Some (Msg.account msg))
     \/ Msg.type msg = "order_filled" \/ Msg.type msg = "order_pending")
  /\ (Msg.type msg = "order_filled" \/ Msg.type msg = "order_pending" ->
      fst (handleMessage msg s) = s).
Proof.
  unfold handleMessage. destruct msg as [ty u a o ps os ts ds cs m]. cbn [Msg.type
    Msg.user Msg.account Msg.message Msg.trades].
  assert (Hsnap : isSnapshotType ty = true ->
            ty <> "bootstrap_ok" /\ ty <> "order_filled" /\ ty <> "order_pending").
  { unfold isSnapshotType. intros Hs.
    repeat split; intros ->; discriminate Hs. }
  by_type ty.
  - subst ty. split.
    + destruct a; cbn; split.
      * intros _. left. split; [reflexivity|eauto].
      * intros _. right. now left.
      * intros [[=]|[]].
      * intros [[_ [x [=]]]|[[=]|[=]]].
    + intros [[=]|[=]].
  - destruct (Hsnap eq_refl) as (H1 & H2 & H3). cbn. split.
    + split; [intros []|]. intros [[E _]|[E|E]]; congruence.
    + intros [E|E]; congruence.
  - subst ty. cbn. split; [|intros [[=]|[=]]].
    split; [intros []|]. intros [[[=] _]|[[=]|[=]]].
  - subst ty. cbn. split; [|reflexivity].
    split; [intros _; right; now left|]. intros _. right. now left.
  - subst ty. cbn. split; [|reflexivity].
    split; [intros _; right; now right|]. intros _. right. now left.
  - subst ty. split; [|intros [[=]|[=]]].
    destruct u; cbn; (split; [intros [[=]|[]] || intros []|]);
      intros [[[=] _]|[[=]|[=]]].
  - subst ty. split; [|intros [[=]|[=]]].
    destruct a; cbn; (split; [intros [[=]|[[=]|[]]] || intros []|]);
      intros [[[=] _]|[[=]|[=]]].
  - subst ty. split; [|intros [[=]|[=]]].
    destruct m as [m|]; [destruct (truthy m && includes "No account found" m)|];
      cbn; (split; [intros [[=]|[]] || intros []|]);
      intros [[[=] _]|[[=]|[=]]].
  - cbn. split; [|intros [E|E]; congruence].
    split; [intros []|]. intros [[E _]|[E|E]]; congruence.
Qed.

(** After a snapshot message the pages are shown exactly when a user and an
    account are known and the message carried a truthy overview: a snapshot
    without an overview, or with a falsy one ([null], 0, the empty string),
    sends the root back to its connecting (or error) text, whatever was known
    before. *)
Theorem snapshot_without_overview_hides_pages (msg : Msg.t) (s : Snapshot) :
  isSnapshotType (Msg.type msg) = true ->
  (screen (fst (handleMessage msg s)) = MainScreen <->
     is_Some (user s) /\ is_Some (account s)
     /\ exists o, Msg.overview msg = Some o /\ truthyJson o = true)
  /\ (Msg.overview msg = None -> screen (fst (handleMessage msg s)) <> MainScreen)
  /\ (forall o, Msg.overview msg = Some o -> truthyJson o = false ->
        screen (fst (handleMessage msg s)) <> MainScreen).
Proof.
  intros Hty. unfold handleMessage.
  assert (Hb : String.eqb (Msg.type msg) "bootstrap_ok" = false).
  { destruct (String.eqb_spec (Msg.type msg) "bootstrap_ok") as [E|]; [|reflexivity].
    rewrite E in Hty. discriminate. }
  rewrite Hb, Hty. unfold screen. cbn [fst applySnapshot user account overview wsError].
  assert (Hgate : forall P : Prop,
    (match wsError s with
     | Some e => if truthy e then ErrorScreen e else ConnectingScreen
     | None => ConnectingScreen
     end = MainScreen -> P)).
  { intros P. destruct (wsError s) as [e|]; [destruct (truthy e)|]; discriminate. }
  assert (Hiff :
    (if negb (bool_decide (is_Some (user s))) || negb (bool_decide (is_Some (account s)))
        || negb (truthyCell (Msg.overview msg))
     then match wsError s with
          | Some e => if truthy e then ErrorScreen e else ConnectingScreen
          | None => ConnectingScreen
          end
     else MainScreen) = MainScreen <->
    is_Some (user s) /\ is_Some (account s)
    /\ exists o, Msg.overview msg = Some o /\ truthyJson o = true).
  { split.
    - intros Hm.
      destruct (user s) as [u|], (account s) as [a|], (Msg.overview msg) as [o|];
        cbn in Hm; try exact (Hgate _ Hm).
      destruct (truthyJson o) eqn:Ho; cbn in Hm; [|exact (Hgate _ Hm)].
      repeat split; eauto.
    - intros ([u Hu] & [a Ha] & o & Ho & Ht). rewrite Hu, Ha, Ho. cbn.
      now rewrite Ht. }
  split; [exact Hiff|]. split.
  - intros Hnone Hmain. apply Hiff in Hmain as (_ & _ & o & Ho & _). congruence.
  - intros o Ho Hf Hmain. apply Hiff in Hmain as (_ & _ & o' & Ho' & Ht). congruence.
Qed.

(** *** One socket for the whole page *)

(** A mount that finds a singleton socket that is connecting or open adopts
    it: no socket is created and no timer armed.  So when the effect is
    mounted, unmounted and mounted again before the first socket has closed
    (what React's StrictMode does), one socket is opened, not two. *)
Theorem live_singleton_is_reused (l : Link) (ready : ReadyState) (throws : bool)
    (sock : nat) :
  WS_SINGLETON l = Some sock ->
  ready = CONNECTING \/ ready = OPEN ->
  (WS_SINGLETON (mountConnection ready throws l) = Some sock
   /\ wsRef (mountConnection ready throws l) = Some sock
   /\ nextSocket (mountConnection ready throws l) = nextSocket l
   /\ timers (mountConnection ready throws l) = timers l)
  /\ (forall l0 anyReady,
        WS_SINGLETON l0 = None ->
        nextSocket (mountConnection ready false
                      (unmountConnection (mountConnection anyReady false l0)))
        = S (nextSocket l0)
        /\ WS_SINGLETON (mountConnection ready false
                           (unmountConnection (mountConnection anyReady false l0)))
           = Some (nextSocket l0)).
Proof.
  intros Hs Hr. split.
  - unfold mountConnection. rewrite Hs.
    destruct Hr as [-> | ->]; cbn; repeat split.
  - intros l0 anyReady H0. unfold mountConnection, unmountConnection. cbn.
    rewrite H0. cbn. destruct Hr as [-> | ->]; cbn; split; reflexivity.
Qed.

(** *** A connection that cannot be created is retried for ever *)

Lemma retry_invariant n l :
  timers l = [] ->
  timers (retry n l) = [((nextTimer l + n)%nat, 5000)]
  /\ reconnectTimer (retry n l) = Some (nextTimer l + n)%nat
  /\ nextTimer (retry n l) = S (nextTimer l + n)
  /\ nextSocket (retry n l) = nextSocket l
  /\ WS_SINGLETON (retry n l) = WS_SINGLETON l.
Proof.
  intros Ht. induction n as [|n IH].
  - cbn. rewrite Ht, Nat.add_0_r. repeat split.
  - destruct IH as (H1 & H2 & H3 & H4 & H5). cbn [retry]. rewrite H2.
    unfold fire. rewrite H1. cbn. rewrite Nat.eqb_refl. cbn.
    rewrite H3, H4, H5. replace (nextTimer l + S n)%nat with (S (nextTimer l + n)) by lia.
    repeat split.
Qed.

(** When [new WebSocket] throws, a retry is armed 5000 ms later, and again
    after every retry that throws, without a bound on their number: after
    any number of failed retries exactly one timer is pending, 5000 ms long,
    and no socket has been created. *)
Theorem connect_failure_retries_forever (n : nat) (l : Link) :
  timers l = [] ->
  timers (retry n l) = [((nextTimer l + n)%nat, 5000)]
  /\ reconnectTimer (retry n l) = Some (nextTimer l + n)%nat
  /\ nextSocket (retry n l) = nextSocket l
  /\ WS_SINGLETON (retry n l) = WS_SINGLETON l.
Proof.
  intros Ht. destruct (retry_invariant n l Ht) as (H1 & H2 & _ & H4 & H5).
  repeat split; assumption.
Qed.

(** *** Nothing is sent on a socket that is not open *)

(** [refreshData], [placeOrder], [switchUser] and [switchAccount] put a
    message on the socket only when [wsRef] holds a socket whose state is
    OPEN.  Otherwise [refreshData] does nothing at all, and the other three
    raise the toast "Not connected to server". *)
Theorem nothing_sent_unless_open (l : Link) (ready : ReadyState)
    (payload : Json) (username : string) (accountId : Z) (sendThrows : bool) :
  (fst (refreshData l ready) <> [] \/ fst (placeOrder payload sendThrows l ready) <> []
   \/ fst (switchUser username sendThrows l ready) <> []
   \/ fst (switchAccount accountId sendThrows l ready) <> [] ->
   is_Some (wsRef l) /\ ready = OPEN)
  /\ (wsRef l = None \/ ready <> OPEN ->
      refreshData l ready = ([], [])
      /\ placeOrder payload sendThrows l ready
         = ([], [toastError "Not connected to server"])
      /\ switchUser username sendThrows l ready
         = ([], [toastError "Not connected to server"])
      /\ switchAccount accountId sendThrows l ready
         = ([], [toastError "Not connected to server"])).
Proof.
  unfold refreshData, placeOrder, switchUser, switchAccount, guardedSend, canSend.
  split.
  - destruct (wsRef l) as [w|], ready, sendThrows; cbn;
      intros [Hn|[Hn|[Hn|Hn]]]; try congruence; split; eauto.
  - intros [-> | Hr]; [cbn; repeat split|].
    destruct (wsRef l), ready; cbn; try congruence; repeat split.
Qed.

End ShellProperties.

(** ** The further properties at concrete inputs *)

Module MoreExamples.
Import JS Examples.

#[local] Existing Instance isoDate.

(** *** The chart *)

Lemma nearestIndex_in_range_witness :
  threeDays <> []
  /\ (PriceChart.nearestIndex threeDays (Date_getTime "yesterday") < length threeDays)%nat
  /\ PriceChart.nearestIndex threeDays None = 0%nat.
Proof.
  assert (Hne : threeDays <> []) by discriminate.
  split; [exact Hne|].
  exact (ChartProperties.nearestIndex_in_range threeDays (Date_getTime "yesterday") Hne).
Defined.

Lemma render_datasets_aligned_witness :
  (exists c, PriceChart.render "BTC" "CRYPTO" None false None threeDays fourTrades = Some c
     /\ length (PriceChart.buyLine c) = length (PriceChart.priceLine c)
     /\ length (PriceChart.priceLine c) = 3%nat).
Proof.
  eexists. split; [reflexivity|].
  destruct (ChartProperties.render_datasets_aligned "BTC" "CRYPTO" None false None
              threeDays fourTrades _ eq_refl) as (Hp & Hb & _).
  split; [exact Hb|exact Hp].
Defined.

Lemma every_trade_is_drawn_witness :
  PriceChart.validKlineData None threeDays <> []
  /\ (trade 1 "BUY" 10 "2024-01-02T01:00:00Z"
       ∈ PriceChart.symbolTrades "BTC" "CRYPTO" None fourTrades)
  /\ exists p, PriceChart.buyData "BTC" "CRYPTO" None threeDays fourTrades !! 1%nat
               = Some (Some p).
Proof.
  assert (Hne : PriceChart.validKlineData None threeDays <> []) by discriminate.
  assert (Hin : trade 1 "BUY" 10 "2024-01-02T01:00:00Z"
                  ∈ PriceChart.symbolTrades "BTC" "CRYPTO" None fourTrades)
    by (vm_compute; constructor).
  split; [exact Hne|]. split; [exact Hin|].
  exact (proj1 (ChartProperties.every_trade_is_drawn "BTC" "CRYPTO" None threeDays
                  fourTrades _ Hne Hin) eq_refl).
Defined.

Lemma trades_outside_range_go_to_the_edges_witness :
  PriceChart.nearestIndex threeDays (Date_getTime "2021-06-01") = 0%nat
  /\ PriceChart.nearestIndex threeDays (Date_getTime "2024-06-01") = 2%nat.
Proof.
  assert (Hfirst : forall k,
            k ∈ [candle 1704153600 101] ++ [candle 1704240000 102] ->
            PriceChart.klineTime (candle 1704067200 100) <= PriceChart.klineTime k).
  { intros k Hk. cbn in Hk.
    repeat (apply elem_of_cons in Hk as [->|Hk]; [discriminate|]).
    now apply elem_of_nil in Hk. }
  assert (Hlast : forall k,
            k ∈ [candle 1704067200 100; candle 1704153600 101] ->
            PriceChart.klineTime k < PriceChart.klineTime (candle 1704240000 102)).
  { intros k Hk.
    repeat (apply elem_of_cons in Hk as [->|Hk]; [reflexivity|]).
    now apply elem_of_nil in Hk. }
  split.
  - refine (proj1 (ChartProperties.trades_outside_range_go_to_the_edges
                     (candle 1704067200 100) (candle 1704240000 102)
                     [candle 1704153600 101] 1622505600000 Hfirst Hlast) _).
    discriminate.
  - refine (proj2 (ChartProperties.trades_outside_range_go_to_the_edges
                     (candle 1704067200 100) (candle 1704240000 102)
                     [candle 1704153600 101] 1717200000000 Hfirst Hlast) _).
    discriminate.
Defined.

(** The replay of January on its 2nd day and on its 8th. *)
Definition secondDay : ReplayClock :=
  {| start_date := "2024-01-01T00:00:00Z"; end_date := "2024-01-31T23:59:59Z";
     current_date := "2024-01-02T00:00:00Z"; speed_multiplier := 1;
     trading_interval_days := Some 1; progress := None |}.

Lemma replay_advance_only_adds_witness :
  sublist (PriceChart.validKlineData (replaying secondDay) threeDays)
          (PriceChart.validKlineData (replaying (january 1 (Some 1))) threeDays)
  /\ length (PriceChart.validKlineData (replaying secondDay) threeDays) = 2%nat
  /\ length (PriceChart.validKlineData (replaying (january 1 (Some 1))) threeDays) = 3%nat.
Proof.
  split; [|split; reflexivity].
  refine (proj1 (ChartProperties.replay_advance_only_adds "BTC" "CRYPTO"
                   secondDay (january 1 (Some 1)) 1704153600000 1704672000000
                   threeDays fourTrades eq_refl _ _ _ eq_refl eq_refl _));
    discriminate.
Defined.

Lemma inactive_chart_is_original_witness :
  PriceChart.isReplayActive None = false
  /\ PriceChart.buyData "BTC" "CRYPTO" None threeDays fourTrades
     = OriginalPriceChart.buyData "BTC" "CRYPTO" threeDays fourTrades.
Proof.
  split; [reflexivity|].
  refine (proj1 (proj2 (proj2 (ChartProperties.inactive_chart_is_original
                   "BTC" "CRYPTO" None threeDays fourTrades eq_refl _)))).
  intros _ t Ht. unfold fourTrades in Ht.
  repeat (apply elem_of_cons in Ht as [->|Ht]; [reflexivity|]).
  now apply elem_of_nil in Ht.
Defined.

(** *** The replay clock controller *)

Import ComprehensiveView.

Definition afterTwoPolls : list Event :=
  [FetchSettles (Rejected None); TimeoutFires 1;
   FetchSettles (Fulfilled {| active := false; state := None |})].

Lemma poll_loop_alive_witness :
  (RunFetch ∉ afterTwoPolls)
  /\ cancelled (run (mount idle) (RunFetch :: afterTwoPolls)) = false
  /\ ((inFlightRef (run (mount idle) (RunFetch :: afterTwoPolls)) = true
       /\ outstanding (run (mount idle) (RunFetch :: afterTwoPolls)) = 1%nat
       /\ timeouts (run (mount idle) (RunFetch :: afterTwoPolls)) = [])
      \/ (inFlightRef (run (mount idle) (RunFetch :: afterTwoPolls)) = false
          /\ outstanding (run (mount idle) (RunFetch :: afterTwoPolls)) = 0%nat
          /\ exists h d,
               timeouts (run (mount idle) (RunFetch :: afterTwoPolls)) = [(h, d)]
               /\ pollTimeoutRef (run (mount idle) (RunFetch :: afterTwoPolls)) = Some h
               /\ (d = 10000 \/ d = 30000))).
Proof.
  assert (Hno : RunFetch ∉ afterTwoPolls).
  { unfold afterTwoPolls. intros Hin.
    repeat (apply elem_of_cons in Hin as [Hin|Hin]; [discriminate Hin|]).
    now apply elem_of_nil in Hin. }
  split; [exact Hno|]. split; [reflexivity|].
  exact (proj1 (ControllerProperties.poll_loop_alive idle afterTwoPolls Hno) eq_refl).
Defined.

Lemma poll_does_not_restart_timer_witness :
  (speed_multiplier secondDay == speed_multiplier (january 1 (Some 1%Z)))%Q
  /\ commit (replaying (january 1 (Some 1))) (commit (replaying secondDay) unmounted)
     = commit (replaying secondDay) unmounted.
Proof.
  assert (Heq : (speed_multiplier secondDay == speed_multiplier (january 1 (Some 1%Z)))%Q)
    by reflexivity.
  split; [exact Heq|].
  exact (ControllerProperties.poll_does_not_restart_timer
           (commit (replaying secondDay) unmounted) secondDay (january 1 (Some 1))
           eq_refl Heq).
Defined.

Lemma idle_window_is_good :
  ~ ComprehensiveViewFacts.badWindow (startDate idle) (endDate idle).
Proof.
  intros [E|[E|(a & b & Ha & Hb & Hge)]]; [discriminate E|discriminate E|].
  vm_compute in Ha, Hb. injection Ha as <-. injection Hb as <-.
  apply Hge. reflexivity.
Defined.

Lemma handleStart_sends_one_request_witness :
  List.filter isNetworkCall (snd (handleStart (StartReplied true None) idle))
  = [startReplay (Text "2024-01-01T00:00:00Z") (Text "2024-01-31T23:59:59Z")
                 1%Q (Some 1%Z)]
  /\ fst (handleStart (StartReplied true None) idle) = idle.
Proof.
  destruct (ControllerProperties.handleStart_sends_one_request idle
              (StartReplied true None) idle_window_is_good) as (Hv & Hn & _).
  split; [exact Hn|exact Hv].
Defined.

(** A start date typed by hand. *)
Definition soon : ViewState :=
  {| replayState := None; startDate := "soon"; endDate := "2024-01-31";
     speedMultiplier := 1; tradingIntervalDays := 7; loading := false;
     showReplayControls := true |}.

Definition soonDialog : ReplayModeDialog.DialogState :=
  {| ReplayModeDialog.replayState := None;
     ReplayModeDialog.startDate := "soon";
     ReplayModeDialog.endDate := "2024-01-31";
     ReplayModeDialog.speedMultiplier := 1;
     ReplayModeDialog.loading := false |}.

Lemma unparsable_date_is_not_rejected_witness :
  Date_getTime (startDate soon) = None
  /\ head (snd (handleStart (StartReplied true None) soon))
     = Some (startReplay (Text "soonT00:00:00Z") (Text "2024-01-31T23:59:59Z")
                         1%Q (Some 7%Z))
  /\ existsb isNetworkCall
       (snd (ReplayModeDialog.handleStart None (Rejected None) soonDialog)) = false.
Proof.
  split; [reflexivity|].
  destruct (ControllerProperties.unparsable_date_is_not_rejected soon soonDialog
              (StartReplied true None) None (Rejected None))
    as (Hv & Hd & _); try discriminate; try reflexivity.
  - left. reflexivity.
  - split; [exact Hv|exact Hd].
Defined.

(** *** The push channel and the application root *)

Import App AppShell.

(** Two full snapshots, one without an overview and one whose overview is
    the number 0. *)
Definition noOverview : Msg.t :=
  {| Msg.type := "snapshot"; Msg.user := None; Msg.account := None;
     Msg.overview := None; Msg.positions := Some []; Msg.orders := Some [];
     Msg.trades := Some []; Msg.ai_decisions := Some [];
     Msg.all_asset_curves := None; Msg.message := None |}.

Definition zeroOverview : Msg.t :=
  {| Msg.type := "snapshot"; Msg.user := None; Msg.account := None;
     Msg.overview := Some (JNumber 0); Msg.positions := Some [];
     Msg.orders := Some []; Msg.trades := Some []; Msg.ai_decisions := Some [];
     Msg.all_asset_curves := None; Msg.message := None |}.

Lemma snapshot_without_overview_hides_pages_witness :
  screen known = MainScreen
  /\ isSnapshotType (Msg.type partial) = true
  /\ screen (fst (handleMessage partial known)) = MainScreen
  /\ screen (fst (handleMessage noOverview known)) <> MainScreen
  /\ screen (fst (handleMessage zeroOverview known)) <> MainScreen.
Proof.
  split; [reflexivity|]. split; [reflexivity|]. split; [|split].
  - apply (ShellProperties.snapshot_without_overview_hides_pages partial known eq_refl).
    cbn. split; [eauto|]. split; [eauto|]. eexists. split; reflexivity.
  - apply (ShellProperties.snapshot_without_overview_hides_pages noOverview known eq_refl).
    reflexivity.
  - apply (proj2 (proj2 (ShellProperties.snapshot_without_overview_hides_pages
                           zeroOverview known eq_refl)) (JNumber 0)); reflexivity.
Defined.

Lemma live_singleton_is_reused_witness :
  WS_SINGLETON connected = Some 1%nat
  /\ nextSocket (mountConnection OPEN false connected) = nextSocket connected
  /\ wsRef (mountConnection OPEN false connected) = Some 1%nat.
Proof.
  split; [reflexivity|].
  destruct (ShellProperties.live_singleton_is_reused connected OPEN false 1 eq_refl
              (or_intror eq_refl)) as ((_ & Hw & Hn & _) & _).
  split; [exact Hn|exact Hw].
Defined.

Definition offline : Link :=
  {| WS_SINGLETON := None; wsRef := None; ws := None; reconnectTimer := None;
     timers := []; nextTimer := 1; nextSocket := 1; wsConnected := false |}.

Lemma connect_failure_retries_forever_witness :
  timers offline = []
  /\ timers (retry 3 offline) = [(4%nat, 5000)]
  /\ WS_SINGLETON (retry 3 offline) = None.
Proof.
  split; [reflexivity|].
  destruct (ShellProperties.connect_failure_retries_forever 3 offline eq_refl)
    as (Ht & _ & _ & Hs).
  split; [exact Ht|exact Hs].
Defined.

End MoreExamples.
